(** * flux-replicate-mcp: the generate_image request pipeline of [src/index.ts]

    A shallow embedding of the [FluxMcpServer] class: the filename derivation
    ([generateFilename]), the path resolver ([resolveOutputPath]), the request
    handler ([handleGenerateImage]) and the tool-call handler installed by
    [setupHandlers].

    Conventions.
    - A JavaScript string is the list of its UTF-16 code units ([jsstring]).
    - A JavaScript number coming from the argument bag or from a collaborator
      is given by an integer ([Z]) and stands for the nearest Number, which is
      what [dec_Z] prints; the cost, which is fractional, is given by its
      exact rational value ([Q]).
    - [async]/[await] code is sequential, so it is written in a state and
      exception monad over a [World] that records the observable events. *)

From Stdlib Require Import List ZArith NArith QArith Qround Qabs DecimalN.
From Stdlib Require Import Bool Ascii String Lia.
Import ListNotations.

Local Open Scope N_scope.
Local Open Scope list_scope.

(* ================================================================== *)
(** ** JavaScript strings *)

Definition jsstring := list N.

(** A string literal of the source, as code units. *)
Definition js (s : string) : jsstring :=
  map N_of_ascii (list_ascii_of_string s).

(** The newline escape of the template literals. *)
Definition nl : jsstring := [10].

(** The regular-expression class [\s], which is also the set of characters
    removed by [String.prototype.trim]: WhiteSpace and LineTerminator. *)
Definition is_whitespace (c : N) : bool :=
  ((9 <=? c) && (c <=? 13))
  || (c =? 32) || (c =? 160) || (c =? 5760)
  || ((8192 <=? c) && (c <=? 8202))
  || (c =? 8232) || (c =? 8233) || (c =? 8239) || (c =? 8287)
  || (c =? 12288) || (c =? 65279).

(** The ranges [a-z] and [0-9]. *)
Definition is_lower (c : N) : bool := (97 <=? c) && (c <=? 122).
Definition is_digit (c : N) : bool := (48 <=? c) && (c <=? 57).

(** The negated class [[^a-z0-9\s]] of [generateFilename]. *)
Definition not_alnum_or_space (c : N) : bool :=
  negb (is_lower c || is_digit c || is_whitespace c).

(** [s.replace(/[cls]/g, r)]: every code unit of the class is replaced. *)
Fixpoint replace_each (cls : N -> bool) (r s : jsstring) : jsstring :=
  match s with
  | [] => []
  | c :: t => if cls c then r ++ replace_each cls r t
              else c :: replace_each cls r t
  end.

(** [s.replace(/[cls]+/g, r)]: the scan emits [r] where a match starts and the
    greedy quantifier then consumes the rest of the run ([in_match]). *)
Fixpoint replace_runs_from (cls : N -> bool) (r : jsstring)
         (in_match : bool) (s : jsstring) : jsstring :=
  match s with
  | [] => []
  | c :: t =>
      if cls c
      then (if in_match then [] else r) ++ replace_runs_from cls r true t
      else c :: replace_runs_from cls r false t
  end.

Definition replace_runs (cls : N -> bool) (r s : jsstring) : jsstring :=
  replace_runs_from cls r false s.

(** [s.substring(0, n)]. *)
Definition substring0 (n : nat) (s : jsstring) : jsstring := firstn n s.

(** [s.trim()]. *)
Fixpoint trimStart (s : jsstring) : jsstring :=
  match s with
  | [] => []
  | c :: t => if is_whitespace c then trimStart t else s
  end.

Definition trimEnd (s : jsstring) : jsstring := rev (trimStart (rev s)).

Definition trim (s : jsstring) : jsstring := trimEnd (trimStart s).

(** [toLowerCase] on the ASCII range. *)
Definition ascii_lower (c : N) : N :=
  if (65 <=? c) && (c <=? 90) then c + 32 else c.

Definition is_ascii (c : N) : bool := c <? 128.

(* ================================================================== *)
(** ** Decimal printing *)

Fixpoint uint_codes (d : Decimal.uint) : jsstring :=
  match d with
  | Decimal.Nil => []
  | Decimal.D0 d => 48 :: uint_codes d
  | Decimal.D1 d => 49 :: uint_codes d
  | Decimal.D2 d => 50 :: uint_codes d
  | Decimal.D3 d => 51 :: uint_codes d
  | Decimal.D4 d => 52 :: uint_codes d
  | Decimal.D5 d => 53 :: uint_codes d
  | Decimal.D6 d => 54 :: uint_codes d
  | Decimal.D7 d => 55 :: uint_codes d
  | Decimal.D8 d => 56 :: uint_codes d
  | Decimal.D9 d => 57 :: uint_codes d
  end.

(** The decimal digits of a natural number, ["0"] for zero. *)
Definition dec_N (n : N) : jsstring := uint_codes (N.to_uint n).

(** The Number that a positive integer denotes: the nearest value with 53
    significant bits, a tie going to the even one. *)
Definition toNumber (m : N) : N :=
  let bits := N.size m in
  if bits <=? 53 then m
  else
    let shift := bits - 53 in
    let q := N.shiftr m shift in
    let r := m - N.shiftl q shift in
    let half := N.shiftl 1 (shift - 1) in
    let q := if (half <? r) || ((r =? half) && N.odd q) then q + 1 else q in
    N.shiftl q shift.

(** [Number::toString] looks for the fewest digits [s] with [s * 10^(n-k)]
    denoting the number.  With [k] digits and the decimal exponent [n], the
    candidates are the two multiples of [10^(n-k)] around [x]; of two that
    fit, the nearer is taken, and the even one at equal distance. *)
Definition shortest_with (x n k : N) : option (N * N) :=
  let p := 10 ^ (n - k) in
  let lo := x / p in
  let hi := lo + 1 in
  let fits s :=
    (10 ^ (k - 1) <=? s) && (s <? 10 ^ k) && (toNumber (s * p) =? x) in
  let below := x - lo * p in
  let above := hi * p - x in
  let lo_nearer := (below <? above) || ((below =? above) && N.even lo) in
  match fits lo, fits hi with
  | true, true => Some (if lo_nearer then lo else hi, n)
  | true, false => Some (lo, n)
  | false, true => Some (hi, n)
  | false, false => None
  end.

(** The digits [s] and the exponent [n] of a number with [digits] decimal
    digits, trying [k], [k + 1], ... digits; 17 always suffice. *)
Fixpoint shortest (fuel : nat) (x digits k : N) : N * N :=
  match fuel with
  | O => (x, digits)
  | S fuel =>
      match shortest_with x digits k with
      | Some found => found
      | None =>
          match shortest_with x (digits + 1) k with
          | Some found => found
          | None => shortest fuel x digits (k + 1)
          end
      end
  end.

Fixpoint zeros (k : nat) : jsstring :=
  match k with
  | O => []
  | S k => 48 :: zeros k
  end.

(** [Number::toString] of the Number a positive integer denotes: every
    digit below [2^53]; above, the shortest digits, followed by zeros up to
    21 digits and in exponent form beyond; [Infinity] from [2^1024]. *)
Definition Number_toString (m : N) : jsstring :=
  let x := toNumber m in
  if 2 ^ 1024 <=? x then js "Infinity"
  else if x <? 2 ^ 53 then dec_N x
  else
    let (s, n) := shortest 17 x (N.of_nat (List.length (dec_N x))) 1 in
    let ds := dec_N s in
    if n <=? 21 then ds ++ zeros (N.to_nat n - List.length ds)
    else
      match ds with
      | [] => []
      | d :: [] => [d] ++ js "e+" ++ dec_N (n - 1)
      | d :: rest => [d] ++ js "." ++ rest ++ js "e+" ++ dec_N (n - 1)
      end.

(** [Number::toString] on an integer value. *)
Definition dec_Z (z : Z) : jsstring :=
  match z with
  | Z0 => js "0"
  | Zpos p => Number_toString (Npos p)
  | Zneg p => js "-" ++ Number_toString (Npos p)
  end.

(** The digit of weight [10^i] of [n]. *)
Definition digit_at (n : N) (i : N) : N := 48 + (n / 10 ^ i) mod 10.

(** A field of fixed width, as the date-time string format prints them. *)
Definition field2 (n : N) : jsstring := [digit_at n 1; digit_at n 0].
Definition field3 (n : N) : jsstring := digit_at n 2 :: field2 n.
Definition field4 (n : N) : jsstring := digit_at n 3 :: field3 n.
Definition field6 (n : N) : jsstring := digit_at n 5 :: digit_at n 4 :: field4 n.

(* ================================================================== *)
(** ** Dates *)

(** The UTC fields of a [Date]. *)
Record UTCDate := {
  year : Z;
  month : N;      (* 1..12 *)
  day : N;        (* 1..31 *)
  hours : N;      (* 0..23 *)
  minutes : N;    (* 0..59 *)
  seconds : N;    (* 0..59 *)
  millis : N      (* 0..999 *)
}.

(** The year of [Date.prototype.toISOString]: four digits from 0 to 9999, a
    sign and six digits otherwise. *)
Definition iso_year (y : Z) : jsstring :=
  if ((0 <=? y) && (y <=? 9999))%Z then field4 (Z.to_N y)
  else (if (y <? 0)%Z then js "-" else js "+") ++ field6 (Z.abs_N y).

(** [Date.prototype.toISOString]: [YYYY-MM-DDTHH:mm:ss.sssZ]. *)
Definition toISOString (d : UTCDate) : jsstring :=
  iso_year (year d) ++ js "-" ++ field2 (month d) ++ js "-" ++ field2 (day d)
  ++ js "T" ++ field2 (hours d) ++ js ":" ++ field2 (minutes d)
  ++ js ":" ++ field2 (seconds d) ++ js "." ++ field3 (millis d) ++ js "Z".

(** The class [[:.]] of the timestamp clean-up. *)
Definition colon_or_period (c : N) : bool := (c =? 58) || (c =? 46).

(* ================================================================== *)
(** ** The host: engine and platform functions the source imports *)

(** What [index.ts] takes from the JavaScript engine and from Node's [path]
    module.  [isAbsolute], [join] and [dirname] depend on the platform;
    [unicode_toLowerCase] is the engine's case mapping of a string that holds
    a code unit outside ASCII. *)
Class Host := {
  unicode_toLowerCase : jsstring -> jsstring;
  isAbsolute : jsstring -> bool;
  join : jsstring -> jsstring -> jsstring;
  dirname : jsstring -> jsstring
}.

(** [String.prototype.toLowerCase]. *)
Definition toLowerCase `{Host} (s : jsstring) : jsstring :=
  if forallb is_ascii s then map ascii_lower s else unicode_toLowerCase s.

(** *** The POSIX [path] module *)

Definition slash : N := 47.

(** The segments between separators. *)
Fixpoint split_slash (cur : jsstring) (s : jsstring) : list jsstring :=
  match s with
  | [] => [rev cur]
  | c :: t => if c =? slash then rev cur :: split_slash [] t
              else split_slash (c :: cur) t
  end.

Definition is_dot (seg : jsstring) : bool :=
  match seg with [46] => true | _ => false end.

Definition is_dotdot (seg : jsstring) : bool :=
  match seg with [46; 46] => true | _ => false end.

(** [normalizeString]: the stack of kept segments, innermost first. *)
Fixpoint normalize_segments (allowAboveRoot : bool) (stack : list jsstring)
         (segs : list jsstring) : list jsstring :=
  match segs with
  | [] => rev stack
  | seg :: rest =>
      if match seg with [] => true | _ => false end || is_dot seg
      then normalize_segments allowAboveRoot stack rest
      else if is_dotdot seg then
        match stack with
        | top :: below =>
            if is_dotdot top
            then normalize_segments allowAboveRoot
                   (if allowAboveRoot then seg :: stack else stack) rest
            else normalize_segments allowAboveRoot below rest
        | [] =>
            normalize_segments allowAboveRoot
              (if allowAboveRoot then [seg] else []) rest
        end
      else normalize_segments allowAboveRoot (seg :: stack) rest
  end.

Fixpoint join_with (sep : jsstring) (l : list jsstring) : jsstring :=
  match l with
  | [] => []
  | [x] => x
  | x :: rest => x ++ sep ++ join_with sep rest
  end.

Definition posix_isAbsolute (p : jsstring) : bool :=
  match p with
  | c :: _ => c =? slash
  | [] => false
  end.

Definition posix_normalize (p : jsstring) : jsstring :=
  match p with
  | [] => js "."
  | _ =>
      let absolute := posix_isAbsolute p in
      let trailing := match rev p with c :: _ => c =? slash | [] => false end in
      let body := join_with [slash]
                    (normalize_segments (negb absolute) [] (split_slash [] p)) in
      match body with
      | [] => if absolute then js "/" else if trailing then js "./" else js "."
      | _ =>
          let body := if trailing then body ++ [slash] else body in
          if absolute then slash :: body else body
      end
  end.

(** [path.join(a, b)]: the non-empty arguments, joined and normalised. *)
Definition posix_join (a b : jsstring) : jsstring :=
  match a, b with
  | [], [] => js "."
  | [], _ => posix_normalize b
  | _, [] => posix_normalize a
  | _, _ => posix_normalize (a ++ [slash] ++ b)
  end.

Fixpoint drop_slashes (s : jsstring) : jsstring :=
  match s with
  | c :: t => if c =? slash then drop_slashes t else s
  | [] => []
  end.

Fixpoint drop_segment (s : jsstring) : jsstring :=
  match s with
  | c :: t => if c =? slash then s else drop_segment t
  | [] => []
  end.

(** [path.dirname]: the scan runs from the end down to index 1. *)
Definition posix_dirname (p : jsstring) : jsstring :=
  match p with
  | [] => js "."
  | c :: t =>
      let hasRoot := c =? slash in
      match drop_segment (drop_slashes (rev t)) with
      | [] => if hasRoot then js "/" else js "."
      | _ :: before =>
          if hasRoot && match before with [] => true | _ => false end
          then js "//"
          else c :: rev before
      end
  end.

(** The lower case of one code unit, for the letters of Basic Latin and of
    Latin-1 Supplement and for the two characters outside ASCII whose lower
    case holds an ASCII letter: the capital I with a dot above (an [i] and
    a combining dot) and the Kelvin sign (a [k]). *)
Definition lower_code_unit (c : N) : jsstring :=
  if (65 <=? c) && (c <=? 90) then [c + 32]
  else if (192 <=? c) && (c <=? 222) && negb (c =? 215) then [c + 32]
  else if c =? 304 then [105; 775]
  else if c =? 8490 then [107]
  else [c].

(** A POSIX host.  Its [unicode_toLowerCase] lower-cases a string one code
    unit at a time with [lower_code_unit]; the cased letters of other
    scripts are left as they are, and so it stands for the engine on the
    strings that hold none of those.  It is never reached on ASCII
    strings. *)
Definition posix_host : Host := {|
  unicode_toLowerCase := fun s => flat_map lower_code_unit s;
  isAbsolute := posix_isAbsolute;
  join := posix_join;
  dirname := posix_dirname
|}.

(* ================================================================== *)
(** ** JavaScript values of the argument bag *)

Inductive JsVal :=
| VUndefined
| VNull
| VBool (b : bool)
| VNum (n : Z)
| VStr (s : jsstring)
| VObject (str : jsstring).   (* an object or array, with its string image *)

(** [ToBoolean]. *)
Definition truthy (v : JsVal) : bool :=
  match v with
  | VUndefined | VNull => false
  | VBool b => b
  | VNum n => negb (n =? 0)%Z
  | VStr s => match s with [] => false | _ => true end
  | VObject _ => true
  end.

(** The operator [a || b]. *)
Definition js_or (a b : JsVal) : JsVal := if truthy a then a else b.

(** [ToString], as a template literal applies it. *)
Definition ToString (v : JsVal) : jsstring :=
  match v with
  | VUndefined => js "undefined"
  | VNull => js "null"
  | VBool true => js "true"
  | VBool false => js "false"
  | VNum n => dec_Z n
  | VStr s => s
  | VObject str => str
  end.

(* ================================================================== *)
(** ** Errors *)

Inductive ErrorKind := Validation | Processing.

(** A thrown value: an [McpError] of one of the two kinds, or any other
    error (a [TypeError] of the engine, a system error of [fs]). *)
Inductive Thrown :=
| McpError (kind : ErrorKind) (message : jsstring)
| NativeError (message : jsstring).

(** Modelled from the spec: [errors.js] is not among the sources; its two
    constructors build an [McpError] of the validation and of the processing
    kind. *)
Definition validationError (message : jsstring) : Thrown :=
  McpError Validation message.

Definition processingError (message : jsstring) : Thrown :=
  McpError Processing message.

(** [err instanceof McpError]. *)
Definition instanceof_McpError (e : Thrown) : bool :=
  match e with McpError _ _ => true | NativeError _ => false end.

Definition message_of (e : Thrown) : jsstring :=
  match e with McpError _ m => m | NativeError m => m end.

(* ================================================================== *)
(** ** Data of one request *)

(** The argument object of a [generate_image] call: the six properties the
    handler reads; a property that is absent reads as [VUndefined]. *)
Module Args.
Record t := {
  prompt : JsVal;
  model : JsVal;
  output_path : JsVal;
  width : JsVal;
  height : JsVal;
  quality : JsVal
}.
End Args.

(** The fields of [getConfig()] that the handler reads. *)
Module Config.
Record t := {
  outputFormat : jsstring;
  defaultModel : jsstring;
  outputQuality : Z
}.
End Config.

(** The argument of [replicateClient.generateImage]. *)
Module GenRequest.
Record t := {
  prompt : jsstring;
  model : JsVal;
  width : JsVal;
  height : JsVal
}.
End GenRequest.

(** Its result. *)
Module GenResult.
Record t := {
  imageUrls : list jsstring;
  processingTime : Z
}.
End GenResult.

(** The options and the result of [imageProcessor.processImage]. *)
Module ProcessOptions.
Record t := {
  outputPath : jsstring;
  quality : JsVal;
  width : JsVal;
  height : JsVal
}.
End ProcessOptions.

Module ProcessResult.
Record t := {
  outputPath : jsstring;
  fileSize : Z;
  width : Z;
  height : Z
}.
End ProcessResult.

Definition Buffer := list N.

(** The response object handed to the transport; [isError] is absent from a
    success payload. *)
Record ContentBlock := {
  type : jsstring;
  text : jsstring
}.

Record Response := {
  content : list ContentBlock;
  isError : option bool
}.

(* ================================================================== *)
(** ** The world, and the monad of handlers *)

(** What a handler does that can be observed from outside. *)
Inductive Event :=
| EvLog (level message : jsstring)
| EvGenerateImage (req : GenRequest.t)
| EvDownloadImage (url : jsstring)
| EvMkdir (dir : jsstring)
| EvProcessImage (opts : ProcessOptions.t)
| EvCleanupAll.

(** The server's [workingDirectory] field, the wall clock, the paths tracked
    by the [TempManager] and the events so far, oldest first. *)
Record World := {
  workingDirectory : jsstring;
  now : UTCDate;
  tracked : list jsstring;
  trace : list Event
}.

Inductive Outcome (A : Type) :=
| Return (a : A)
| Throw (e : Thrown).
Arguments Return {A} a.
Arguments Throw {A} e.

Definition M (A : Type) : Type := World -> Outcome A * World.

Definition ret {A} (a : A) : M A := fun w => (Return a, w).

Definition throw {A} (e : Thrown) : M A := fun w => (Throw e, w).

Definition bind {A B} (m : M A) (k : A -> M B) : M B :=
  fun w => match m w with
           | (Return a, w') => k a w'
           | (Throw e, w') => (Throw e, w')
           end.

(** [try { m } catch (err) { h err }]. *)
Definition try_catch {A} (m : M A) (h : Thrown -> M A) : M A :=
  fun w => match m w with
           | (Return a, w') => (Return a, w')
           | (Throw e, w') => h e w'
           end.

Notation "x <- m ;; k" := (bind m (fun x => k))
  (at level 61, m at next level, right associativity).
Notation "m ;; k" := (bind m (fun _ => k))
  (at level 61, right associativity).

Definition emit (ev : Event) : M unit :=
  fun w => (Return tt,
            {| workingDirectory := workingDirectory w; now := now w;
               tracked := tracked w; trace := trace w ++ [ev] |}).

(** [new Date()]. *)
Definition newDate : M UTCDate := fun w => (Return (now w), w).

(** [this.workingDirectory]. *)
Definition this_workingDirectory : M jsstring :=
  fun w => (Return (workingDirectory w), w).

(** A collaborator behind an interface: it answers or throws, and may track
    or untrack transient paths while it runs. *)
Definition Stub (A : Type) : Type := list jsstring -> Outcome A * list jsstring.

(** A call of a collaborator: the event is recorded when the call starts. *)
Definition call {A} (ev : Event) (s : Stub A) : M A :=
  fun w => let (o, t) := s (tracked w) in
           (o, {| workingDirectory := workingDirectory w; now := now w;
                  tracked := t; trace := trace w ++ [ev] |}).

(** [info] and [error] of [log.js]. *)
Definition info (message : jsstring) : M unit := emit (EvLog (js "info") message).
Definition error (message : jsstring) : M unit := emit (EvLog (js "error") message).

(** Modelled from the spec: [temp.js] is not among the sources.
    [cleanupAll] is best effort, never raises, and leaves the tracked set
    empty. *)
Definition cleanupAll : M unit :=
  fun w => (Return tt,
            {| workingDirectory := workingDirectory w; now := now w;
               tracked := []; trace := trace w ++ [EvCleanupAll] |}).

(** The collaborators and the configuration the server is built on:
    [getConfig] and [calculateCost] of [config.js], the [ReplicateClient], the
    [ImageProcessor] and [fs.mkdir]. *)
Record Env := {
  getConfig : Config.t;
  isModelSupported : JsVal -> bool;
  getAvailableModels : list jsstring;
  generateImage : GenRequest.t -> Stub GenResult.t;
  downloadImage : jsstring -> Stub Buffer;
  mkdir : jsstring -> Stub unit;
  processImage : Buffer -> ProcessOptions.t -> Stub ProcessResult.t;
  calculateCost : JsVal -> Q
}.

(* ================================================================== *)
(** ** Number formatting of the success summary *)

(** [Math.round]: the nearest integer, a tie going up. *)
Definition Math_round (x : Q) : Z := Qfloor (x + (1 # 2))%Q.

(** [x.toFixed(3)].  Below [10^21] in magnitude: the integer [n] nearest to
    [1000 x] (the larger of two), its digits padded to four, and a point
    before the last three.  From [10^21] on, where every Number is an
    integer, [toFixed] hands over to [Number::toString]. *)
Definition toFixed3 (x : Q) : jsstring :=
  let negative := negb (Qle_bool 0 x) in
  let ax := if negative then Qopp x else x in
  (if negative then js "-" else [])
  ++ if Qle_bool (inject_Z (10 ^ 21)) ax
     then Number_toString (Z.to_N (Qfloor ax))
     else
       let n := Z.to_N (Qfloor (ax * 1000 + (1 # 2))%Q) in
       let m := dec_N n in
       let m := if (List.length m <=? 3)%nat
                then zeros (4 - List.length m) ++ m else m in
       let k := List.length m in
       firstn (k - 3) m ++ js "." ++ skipn (k - 3) m.

(** The number that a string of decimal digits denotes. *)
Definition digits_value_from (acc : N) (s : jsstring) : N :=
  fold_left (fun a c => 10 * a + (c - 48)) s acc.

Definition digits_value (s : jsstring) : N := digits_value_from 0 s.

(** [a === b] on strings. *)
Fixpoint str_eqb (a b : jsstring) : bool :=
  match a, b with
  | [], [] => true
  | x :: a', y :: b' => (x =? y) && str_eqb a' b'
  | _, _ => false
  end.

(** [typeof v === 'string'], and the string such a value holds. *)
Definition typeof_string (v : JsVal) : bool :=
  match v with VStr _ => true | _ => false end.

Definition as_string (v : JsVal) : jsstring :=
  match v with VStr s => s | _ => [] end.

(* ================================================================== *)
(** ** The server: [class FluxMcpServer] *)

(** The constants of [handleGenerateImage] once the request is validated
    (lines 167 to 189 of [index.ts]). *)
Module Locals.
Record t := {
  prompt : jsstring;
  resolvedOutputPath : jsstring;
  model : JsVal;
  width : JsVal;
  height : JsVal;
  quality : JsVal
}.
End Locals.

Section Server.

Context {host : Host}.
Variable env : Env.

(** The two chained [replace] calls and the [substring] on the prompt. *)
Definition cleanPrompt (prompt : jsstring) : jsstring :=
  substring0 50
    (replace_runs is_whitespace (js "_")
       (replace_each not_alnum_or_space [] (toLowerCase prompt))).

(** [new Date().toISOString().replace(/[:.]/g, '-').substring(0, 19)]. *)
Definition timestamp (d : UTCDate) : jsstring :=
  substring0 19 (replace_each colon_or_period (js "-") (toISOString d)).

(** [generateFilename] (lines 129 to 139). *)
Definition generateFilename (prompt format : jsstring) : M jsstring :=
  let cleanPrompt := cleanPrompt prompt in
  d <- newDate ;;
  let timestamp := timestamp d in
  ret (cleanPrompt ++ js "_" ++ timestamp ++ js "." ++ format).

(** [resolveOutputPath] (lines 144 to 156).  [isAbsolute] throws a
    [TypeError] on an argument that is not a string. *)
Definition resolveOutputPath (outputPath : JsVal)
           (prompt defaultFormat : jsstring) : M jsstring :=
  if truthy outputPath then
    match outputPath with
    | VStr p =>
        if negb (isAbsolute p)
        then throw (validationError (js
          "output_path must be an absolute path. Relative paths are not supported because the client and server may run in different environments."))
        else ret p
    | _ => throw (NativeError (js "TypeError [ERR_INVALID_ARG_TYPE]"))
    end
  else
    filename <- generateFilename prompt defaultFormat ;;
    wd <- this_workingDirectory ;;
    ret (join wd filename).

(** [handleGenerateImage], first part (lines 162 to 199): everything before
    the [try] block.  [args] is [None] when the call carries no argument
    object, and reading a property of it is then a [TypeError]. *)
Definition validateRequest (args : option Args.t) : M Locals.t :=
  match args with
  | None => throw (NativeError (js "TypeError: Cannot read properties of undefined"))
  | Some args =>
      if negb (truthy (Args.prompt args))
         || negb (typeof_string (Args.prompt args))
         || (List.length (trim (as_string (Args.prompt args))) =? 0)%nat
      then throw (validationError (js
             "Prompt is required and must be a non-empty string"))
      else
        let prompt := trim (as_string (Args.prompt args)) in
        let config := getConfig env in
        resolvedOutputPath <-
          resolveOutputPath (Args.output_path args) prompt
                            (Config.outputFormat config) ;;
        let modelParam :=
          js_or (Args.model args) (VStr (Config.defaultModel config)) in
        let width := js_or (Args.width args) (VNum 1024) in
        let height := js_or (Args.height args) (VNum 768) in
        let quality :=
          js_or (Args.quality args) (VNum (Config.outputQuality config)) in
        if negb (isModelSupported env modelParam)
        then throw (validationError
               (js "Unsupported model: " ++ ToString modelParam
                ++ js ". Supported models: "
                ++ join_with (js ", ") (getAvailableModels env)))
        else
          let model := modelParam in
          info (js "Starting image generation") ;;
          ret {| Locals.prompt := prompt;
                 Locals.resolvedOutputPath := resolvedOutputPath;
                 Locals.model := model;
                 Locals.width := width;
                 Locals.height := height;
                 Locals.quality := quality |}
  end.

(** The constants a validated request leaves, with the defaults of lines
    178 to 181. *)
Definition defaulted (args : Args.t) (prompt path : jsstring) : Locals.t :=
  {| Locals.prompt := prompt;
     Locals.resolvedOutputPath := path;
     Locals.model :=
       js_or (Args.model args) (VStr (Config.defaultModel (getConfig env)));
     Locals.width := js_or (Args.width args) (VNum 1024);
     Locals.height := js_or (Args.height args) (VNum 768);
     Locals.quality :=
       js_or (Args.quality args)
             (VNum (Config.outputQuality (getConfig env))) |}.

(** The text of the success summary (line 250). *)
Definition successText (processResult : ProcessResult.t) (model : JsVal)
           (result : GenResult.t) (cost : Q) (wd : jsstring) : jsstring :=
  js "Image generated successfully!" ++ nl ++ nl
  ++ js "Output: " ++ ProcessResult.outputPath processResult ++ nl
  ++ js "Model: " ++ ToString model ++ nl
  ++ js "Dimensions: " ++ dec_Z (ProcessResult.width processResult)
  ++ js "x" ++ dec_Z (ProcessResult.height processResult) ++ nl
  ++ js "File size: "
  ++ dec_Z (Math_round (inject_Z (ProcessResult.fileSize processResult) / 1024)%Q)
  ++ js "KB" ++ nl
  ++ js "Processing time: " ++ dec_Z (GenResult.processingTime result)
  ++ js "ms" ++ nl
  ++ js "Cost: $" ++ toFixed3 cost ++ nl
  ++ js "Working Directory: " ++ wd.

(** The object passed to [generateImage] (lines 203 to 208) and the options
    passed to [processImage] (lines 227 to 232). *)
Definition generationRequest (v : Locals.t) : GenRequest.t :=
  {| GenRequest.prompt := Locals.prompt v;
     GenRequest.model := Locals.model v;
     GenRequest.width := Locals.width v;
     GenRequest.height := Locals.height v |}.

Definition processOptions (v : Locals.t) : ProcessOptions.t :=
  {| ProcessOptions.outputPath := Locals.resolvedOutputPath v;
     ProcessOptions.quality := Locals.quality v;
     ProcessOptions.width := Locals.width v;
     ProcessOptions.height := Locals.height v |}.

Definition successResponse (summary : jsstring) : Response :=
  {| content := [ {| type := js "text"; text := summary |} ];
     isError := None |}.

(** [handleGenerateImage], the body of the [try] block (lines 202 to 253). *)
Definition runPipeline (v : Locals.t) : M Response :=
  let req := generationRequest v in
  result <- call (EvGenerateImage req) (generateImage env req) ;;
  if (List.length (GenResult.imageUrls result) =? 0)%nat
  then throw (processingError (js "No images were generated"))
  else
    let imageUrl := nth 0 (GenResult.imageUrls result) [] in
    if negb (truthy (VStr imageUrl))
    then throw (processingError (js "No valid image URL returned"))
    else
      imageBuffer <- call (EvDownloadImage imageUrl)
                          (downloadImage env imageUrl) ;;
      let outputDir := dirname (Locals.resolvedOutputPath v) in
      call (EvMkdir outputDir) (mkdir env outputDir) ;;
      let opts := processOptions v in
      processResult <- call (EvProcessImage opts)
                            (processImage env imageBuffer opts) ;;
      let cost := calculateCost env (Locals.model v) in
      info (js "Image generation completed") ;;
      wd <- this_workingDirectory ;;
      ret (successResponse
             (successText processResult (Locals.model v) result cost wd)).

(** [handleGenerateImage] (lines 161 to 260): the validation, then the
    [try] block with its [catch] that cleans up and rethrows. *)
Definition handleGenerateImage (args : option Args.t) : M Response :=
  v <- validateRequest args ;;
  try_catch (runPipeline v)
            (fun err => cleanupAll ;; throw err).

(** The error payload of the tool-call handler (lines 110 to 118). *)
Definition errorPayload (mcpError : Thrown) : Response :=
  {| content := [ {| type := js "text";
                     text := js "Error: " ++ message_of mcpError |} ];
     isError := Some true |}.

(** The handler of [CallToolRequestSchema] (lines 100 to 123). *)
Definition callToolHandler (name : jsstring) (args : option Args.t)
  : M Response :=
  if str_eqb name (js "generate_image") then
    try_catch (handleGenerateImage args)
      (fun err =>
         let mcpError :=
           if instanceof_McpError err then err
           else processingError (js "Unknown error occurred") in
         error (js "Image generation failed") ;;
         ret (errorPayload mcpError))
  else
    throw (validationError (js "Unknown tool: " ++ name)).

End Server.

(* ================================================================== *)
(** ** What the specification says, in its own words *)

(** "stripping every character outside [a-z0-9 ]": the characters kept by
    the claim as it is written (the space character only), and the ones
    kept by the source's class (any whitespace). *)
Definition kept_as_claimed (c : N) : bool :=
  is_lower c || is_digit c || (c =? 32).

Definition kept_by_class (c : N) : bool :=
  is_lower c || is_digit c || is_whitespace c.

(** "collapsing runs of whitespace to a single underscore": a whitespace
    character followed by another one disappears, the last of a run becomes
    the underscore. *)
Fixpoint collapse_whitespace (s : jsstring) : jsstring :=
  match s with
  | [] => []
  | c :: t =>
      if is_whitespace c then
        match t with
        | c' :: _ => if is_whitespace c' then collapse_whitespace t
                     else 95 :: collapse_whitespace t
        | [] => [95]
        end
      else c :: collapse_whitespace t
  end.

(** Lower-case, strip, collapse, truncate to 50. *)
Definition spec_cleanPrompt `{Host} (kept : N -> bool) (prompt : jsstring)
  : jsstring :=
  firstn 50 (collapse_whitespace (filter kept (toLowerCase prompt))).

(** The [YYYY-MM-DDTHH-MM-SS] shape. *)
Definition spec_timestamp (d : UTCDate) : jsstring :=
  field4 (Z.to_N (year d)) ++ js "-" ++ field2 (month d) ++ js "-"
  ++ field2 (day d) ++ js "T" ++ field2 (hours d) ++ js "-"
  ++ field2 (minutes d) ++ js "-" ++ field2 (seconds d).

(** The derived filename. *)
Definition spec_filename `{Host} (kept : N -> bool)
           (prompt format : jsstring) (d : UTCDate) : jsstring :=
  spec_cleanPrompt kept prompt ++ js "_" ++ spec_timestamp d
  ++ js "." ++ format.

(** The prompts the handler must reject: absent or not a string, empty, or
    whitespace only. *)
Definition prompt_missing_or_blank (v : JsVal) : bool :=
  match v with
  | VStr s => forallb is_whitespace s
  | _ => true
  end.

(** The world after [ev] was recorded. *)
Definition logged (ev : Event) (w : World) : World :=
  {| workingDirectory := workingDirectory w; now := now w;
     tracked := tracked w; trace := trace w ++ [ev] |}.

(** The world after the events of a failed run and the clean-up that
    ends it. *)
Definition cleanedUp (w : World) (events : list Event) : World :=
  {| workingDirectory := workingDirectory w; now := now w;
     tracked := []; trace := trace w ++ events ++ [EvCleanupAll] |}.

(** The text of the first content block of a response. *)
Definition text_of_first (resp : Response) : jsstring :=
  match content resp with
  | block :: _ => text block
  | [] => []
  end.

(** How often [cleanupAll] ran, and the events that are remote or filesystem
    input-output. *)
Definition is_cleanup (ev : Event) : bool :=
  match ev with EvCleanupAll => true | _ => false end.

Definition count_cleanup (evs : list Event) : nat :=
  List.length (filter is_cleanup evs).

Definition is_io (ev : Event) : bool :=
  match ev with
  | EvGenerateImage _ | EvDownloadImage _ | EvMkdir _ | EvProcessImage _
  | EvCleanupAll => true
  | EvLog _ _ => false
  end.

(* ================================================================== *)
(** ** Fixtures: a POSIX server with stub collaborators *)

(** Modelled from the spec: the model table of [replicate.js] is not among
    the sources; the supported set is the four literals of the tool's input
    schema, and a value that is not a string is not a supported model. *)
Definition fluxModels : list jsstring :=
  [js "flux-1.1-pro"; js "flux-pro"; js "flux-schnell"; js "flux-ultra"].

Definition fluxModelSupported (v : JsVal) : bool :=
  match v with
  | VStr s => existsb (str_eqb s) fluxModels
  | _ => false
  end.

Definition stubConfig : Config.t :=
  {| Config.outputFormat := js "png";
     Config.defaultModel := js "flux-1.1-pro";
     Config.outputQuality := 80 |}.

(** A remote client that answers with [urls] and leaves a transient file
    behind, a download that answers with [download], and a processor that
    writes a 1024x768 file of 200000 bytes. *)
Definition stubEnv (urls : list jsstring) (download : Outcome Buffer) : Env :=
  {| getConfig := stubConfig;
     isModelSupported := fluxModelSupported;
     getAvailableModels := fluxModels;
     generateImage := fun _ t =>
       (Return {| GenResult.imageUrls := urls;
                  GenResult.processingTime := 1234 |},
        js "/tmp/flux-download.part" :: t);
     downloadImage := fun _ t => (download, t);
     mkdir := fun _ t => (Return tt, t);
     processImage := fun _ opts t =>
       (Return {| ProcessResult.outputPath := ProcessOptions.outputPath opts;
                  ProcessResult.fileSize := 200000;
                  ProcessResult.width := 1024;
                  ProcessResult.height := 768 |}, t);
     calculateCost := fun _ => (3 # 1000)%Q |}.

Definition oneUrl : list jsstring := [js "https://replicate.delivery/out.webp"].

Definition pngBytes : Outcome Buffer := Return [137; 80; 78; 71].

Definition clock0 : UTCDate :=
  {| year := 2024; month := 3; day := 7;
     hours := 9; minutes := 5; seconds := 59; millis := 12 |}.

Definition world0 : World :=
  {| workingDirectory := js "/srv/images"; now := clock0;
     tracked := []; trace := [] |}.

(** The [quality] argument with another value. *)
Definition with_quality (a : Args.t) (q : JsVal) : Args.t :=
  {| Args.prompt := Args.prompt a; Args.model := Args.model a;
     Args.output_path := Args.output_path a; Args.width := Args.width a;
     Args.height := Args.height a; Args.quality := q |}.

(** A world in which an earlier step left a transient file tracked. *)
Definition worldTracking : World :=
  {| workingDirectory := js "/srv/images"; now := clock0;
     tracked := [js "/tmp/flux-earlier.tmp"]; trace := [] |}.

Definition downloadFails : Outcome Buffer :=
  Throw (processingError (js "Failed to download image")).

Definition promptOnly (p : JsVal) : Args.t :=
  {| Args.prompt := p; Args.model := VUndefined;
     Args.output_path := VUndefined; Args.width := VUndefined;
     Args.height := VUndefined; Args.quality := VUndefined |}.

(* ================================================================== *)
(** ** Further vocabulary for the properties of the filename *)

(** The range [A-Z], and an ASCII character that is neither a letter, a
    digit nor whitespace. *)
Definition is_upper (c : N) : bool := (65 <=? c) && (c <=? 90).

Definition is_ascii_symbol (c : N) : bool :=
  is_ascii c
  && negb (is_upper c || is_lower c || is_digit c || is_whitespace c).

(** Two underscores in a row. *)
Fixpoint adjacent_underscores (s : jsstring) : bool :=
  match s with
  | [] => false
  | c :: t =>
      ((c =? 95) && match t with c' :: _ => c' =? 95 | [] => false end)
      || adjacent_underscores t
  end.

(** The characters of a generated name before its extension: lower-case
    letters, digits, the underscore, the hyphen and the [T] of the
    timestamp. *)
Definition is_stem_char (c : N) : bool :=
  is_lower c || is_digit c || (c =? 95) || (c =? 45) || (c =? 84).

(** Two clock readings within the same second. *)
Definition same_second (d1 d2 : UTCDate) : Prop :=
  year d1 = year d2 /\ month d1 = month d2 /\ day d1 = day d2
  /\ hours d1 = hours d2 /\ minutes d1 = minutes d2
  /\ seconds d1 = seconds d2.

(** A single path segment that names a file: not empty, no separator, and
    neither [.] nor [..]. *)
Definition plain_name (f : jsstring) : bool :=
  negb (existsb (fun c => c =? slash) f)
  && match f with [] => false | _ => true end
  && negb (is_dot f) && negb (is_dotdot f).

(** The four collaborator calls of the [try] block, in the order of the
    source, for the URL that is downloaded. *)
Definition stages `{Host} (v : Locals.t) (url : jsstring) : list Event :=
  [EvGenerateImage (generationRequest v);
   EvDownloadImage url;
   EvMkdir (dirname (Locals.resolvedOutputPath v));
   EvProcessImage (processOptions v)].

(** Whether a string begins with a whitespace character. *)
Definition first_is_whitespace (s : jsstring) : bool :=
  match s with
  | c :: _ => is_whitespace c
  | [] => false
  end.


(* ================================================================== *)
(** ** The tool catalogue: the handler of [ListToolsRequestSchema] *)

(** One property of the input schema (lines 64 to 90). *)
Record PropertySchema := {
  propertyName : jsstring;
  schemaType : jsstring;
  enum : list jsstring;
  minimum : option Z;
  maximum : option Z;
  description : jsstring
}.

Record ToolDescription := {
  toolName : jsstring;
  toolDescription : jsstring;
  properties : list PropertySchema;
  required : list jsstring
}.

(** The handler of [ListToolsRequestSchema] (lines 55 to 97). *)
Definition listToolsHandler : M (list ToolDescription) :=
  ret
    [ {| toolName := js "generate_image";
         toolDescription :=
           js "Generate images using Flux Pro or Flux Schnell models";
         properties :=
           [ {| propertyName := js "prompt"; schemaType := js "string";
                enum := []; minimum := None; maximum := None;
                description :=
                  js "Text description of the image to generate" |};
             {| propertyName := js "model"; schemaType := js "string";
                enum := [js "flux-1.1-pro"; js "flux-pro";
                         js "flux-schnell"; js "flux-ultra"];
                minimum := None; maximum := None;
                description :=
                  js "Flux model to use (default: flux-1.1-pro)" |};
             {| propertyName := js "output_path"; schemaType := js "string";
                enum := []; minimum := None; maximum := None;
                description := js
                  "Output file path (optional). Must be an absolute path if provided. If not provided, auto-generated filename will be used in server working directory." |};
             {| propertyName := js "width"; schemaType := js "number";
                enum := []; minimum := None; maximum := None;
                description := js "Image width in pixels (default: 1024)" |};
             {| propertyName := js "height"; schemaType := js "number";
                enum := []; minimum := None; maximum := None;
                description := js "Image height in pixels (default: 768)" |};
             {| propertyName := js "quality"; schemaType := js "number";
                enum := []; minimum := Some 1%Z; maximum := Some 100%Z;
                description :=
                  js "Image quality for lossy formats (default: 80)" |} ];
         required := [js "prompt"] |} ].

(** The argument object that holds the given value under each key of a
    list of keys and nothing else. *)
Definition argsWith (keys : list jsstring) (value : JsVal) : Args.t :=
  let get k := if existsb (str_eqb (js k)) keys then value else VUndefined in
  {| Args.prompt := get "prompt"%string; Args.model := get "model"%string;
     Args.output_path := get "output_path"%string;
     Args.width := get "width"%string; Args.height := get "height"%string;
     Args.quality := get "quality"%string |}.

(* ================================================================== *)
(** ** The life of the process: [start], [shutdown] and [main] *)

(** What the process does besides serving calls. *)
Inductive LifeEvent :=
| LifeEnsureDirectory (dir : jsstring)
| LifeConnect
| LifeClose
| LifeExit (code : Z).

Record Process := {
  world : World;
  lifecycle : list LifeEvent
}.

(** An asynchronous function of the process resolves, or the process exits
    inside it ([process.exit]), or its promise rejects. *)
Inductive Fate (A : Type) :=
| Resolves (a : A)
| Exits (code : Z)
| Rejects (e : Thrown).
Arguments Resolves {A} a.
Arguments Exits {A} code.
Arguments Rejects {A} e.

Definition P (A : Type) : Type := Process -> Fate A * Process.

Definition bindP {A B} (m : P A) (k : A -> P B) : P B :=
  fun p => match m p with
           | (Resolves a, p') => k a p'
           | (Exits code, p') => (Exits code, p')
           | (Rejects e, p') => (Rejects e, p')
           end.

(** [try { m } catch (err) { h err }]: an exit is not an exception. *)
Definition catchP {A} (m : P A) (h : Thrown -> P A) : P A :=
  fun p => match m p with
           | (Rejects e, p') => h e p'
           | other => other
           end.

(** A handler-level action run inside the process. *)
Definition liftM {A} (m : M A) : P A :=
  fun p => match m (world p) with
           | (Return a, w) =>
               (Resolves a, {| world := w; lifecycle := lifecycle p |})
           | (Throw e, w) =>
               (Rejects e, {| world := w; lifecycle := lifecycle p |})
           end.

(** A call of an external of the process, recorded when it starts. *)
Definition attempt {A} (ev : LifeEvent) (o : Outcome A) : P A :=
  fun p => (match o with Return a => Resolves a | Throw e => Rejects e end,
            {| world := world p; lifecycle := lifecycle p ++ [ev] |}).

(** The result of a synchronous call that may throw. *)
Definition fromOutcome {A} (o : Outcome A) : P A :=
  fun p => (match o with Return a => Resolves a | Throw e => Rejects e end, p).

(** [process.exit(code)]. *)
Definition exit {A} (code : Z) : P A :=
  fun p => (Exits code,
            {| world := world p;
               lifecycle := lifecycle p ++ [LifeExit code] |}).

(** [this.workingDirectory = wd]. *)
Definition set_workingDirectory (wd : jsstring) : P unit :=
  fun p => (Resolves tt,
            {| world := {| workingDirectory := wd; now := now (world p);
                           tracked := tracked (world p);
                           trace := trace (world p) |};
               lifecycle := lifecycle p |}).

(** What [start] and [shutdown] call outside this file: [getConfig] of
    [config.js], of which [start] reads the [workingDirectory] field and
    which throws on an invalid configuration; [ensureWorkingDirectory]; and
    [connect] and [close] of the SDK's server. *)
Record Startup := {
  configuredDirectory : Outcome jsstring;
  ensureWorkingDirectory : jsstring -> Outcome jsstring;
  connect : Outcome unit;
  close : Outcome unit
}.

(** [start] (lines 265 to 288). *)
Definition start (sys : Startup) : P unit :=
  catchP
    (bindP (fromOutcome (configuredDirectory sys)) (fun configured =>
     bindP (attempt (LifeEnsureDirectory configured)
                    (ensureWorkingDirectory sys configured)) (fun wd =>
     bindP (set_workingDirectory wd) (fun _ =>
     bindP (liftM (info (js "Starting Flux Replicate MCP Server"))) (fun _ =>
     bindP (attempt LifeConnect (connect sys)) (fun _ =>
     liftM (info (js "Server started successfully"))))))))
    (fun err =>
       bindP (liftM (error (js "Failed to start server"))) (fun _ =>
       exit 1%Z)).

(** [shutdown] (lines 293 to 297). *)
Definition shutdown (sys : Startup) : P unit :=
  bindP (liftM (info (js "Shutting down server"))) (fun _ =>
  bindP (liftM cleanupAll) (fun _ =>
  attempt LifeClose (close sys))).

(** The listener of [SIGINT] and of [SIGTERM] (lines 307 to 315). *)
Definition onSignal (sys : Startup) : P unit :=
  bindP (shutdown sys) (fun _ => exit 0%Z).

(** The server as its constructor leaves it (lines 28 and 43 to 45): no
    working directory yet, nothing tracked. *)
Definition newServer (clock : UTCDate) : Process :=
  {| world := {| workingDirectory := []; now := clock;
                 tracked := []; trace := [] |};
     lifecycle := [] |}.

(** [main] with the [catch] on its promise (lines 303 to 324). *)
Definition main (sys : Startup) (clock : UTCDate) : Fate unit * Process :=
  catchP (start sys)
         (fun err =>
            bindP (liftM (error (js "Server crashed"))) (fun _ => exit 1%Z))
         (newServer clock).

(* ================================================================== *)
(** * Properties *)

(** ** Strings and regular-expression replacement *)

Lemma replace_each_empty_filter (cls : N -> bool) (s : jsstring) :
  replace_each cls [] s = filter (fun c => negb (cls c)) s.
Proof.
  induction s as [|c t IH]; simpl; [reflexivity|].
  destruct (cls c); simpl; now rewrite IH.
Qed.

Lemma strip_is_filter (s : jsstring) :
  replace_each not_alnum_or_space [] s = filter kept_by_class s.
Proof.
  rewrite replace_each_empty_filter.
  apply filter_ext. intro c. unfold not_alnum_or_space, kept_by_class.
  now rewrite negb_involutive.
Qed.

(** The scan that emits the underscore when a run starts and the reading that
    emits it when the run ends agree, inside a run and outside. *)
Lemma replace_runs_from_collapse (s : jsstring) :
  replace_runs_from is_whitespace [95] false s = collapse_whitespace s
  /\ 95 :: replace_runs_from is_whitespace [95] true s
     = match s with
       | c :: _ => if is_whitespace c then collapse_whitespace s
                   else 95 :: collapse_whitespace s
       | [] => [95]
       end.
Proof.
  induction s as [|c t [IHout IHin]]; [split; reflexivity|].
  cbn [replace_runs_from collapse_whitespace].
  destruct (is_whitespace c) eqn:Hc.
  - cbn [app]. rewrite IHin. split; destruct t; reflexivity.
  - rewrite IHout. split; reflexivity.
Qed.

Lemma collapse_is_replace_runs (s : jsstring) :
  replace_runs is_whitespace (js "_") s = collapse_whitespace s.
Proof. exact (proj1 (replace_runs_from_collapse s)). Qed.

Lemma replace_each_app (cls : N -> bool) (r a b : jsstring) :
  replace_each cls r (a ++ b) = replace_each cls r a ++ replace_each cls r b.
Proof.
  induction a as [|c t IH]; simpl; [reflexivity|].
  destruct (cls c); rewrite IH; [now rewrite app_assoc | reflexivity].
Qed.

Lemma replace_each_untouched (cls : N -> bool) (r s : jsstring) :
  forallb (fun c => negb (cls c)) s = true -> replace_each cls r s = s.
Proof.
  induction s as [|c t IH]; simpl; [reflexivity|].
  intro H. apply andb_prop in H. destruct H as [Hc Ht].
  apply negb_true_iff in Hc. rewrite Hc. now rewrite IH.
Qed.

(** ** Decimal digits *)

Lemma digit_at_is_digit (n i : N) : is_digit (digit_at n i) = true.
Proof.
  unfold is_digit, digit_at.
  assert (H : (n / 10 ^ i) mod 10 < 10) by (apply N.mod_lt; discriminate).
  revert H. generalize ((n / 10 ^ i) mod 10). intros x H.
  apply andb_true_iff. split; apply N.leb_le; lia.
Qed.

Lemma digit_not_colon_or_period (c : N) :
  is_digit c = true -> colon_or_period c = false.
Proof.
  unfold is_digit, colon_or_period. intro H.
  apply andb_true_iff in H. destruct H as [H1 H2].
  apply N.leb_le in H1. apply N.leb_le in H2.
  apply orb_false_iff. split; apply N.eqb_neq; lia.
Qed.

Lemma uint_codes_digits (d : Decimal.uint) :
  forallb is_digit (uint_codes d) = true.
Proof. induction d; simpl; auto. Qed.

Lemma dec_N_digits (n : N) : forallb is_digit (dec_N n) = true.
Proof. apply uint_codes_digits. Qed.

Lemma zeros_digits (k : nat) : forallb is_digit (zeros k) = true.
Proof. induction k; simpl; auto. Qed.

Lemma zeros_length (k : nat) : List.length (zeros k) = k.
Proof. induction k; simpl; auto. Qed.

(** ** The timestamp *)

Lemma field2_untouched (n : N) :
  replace_each colon_or_period (js "-") (field2 n) = field2 n.
Proof.
  apply replace_each_untouched. unfold field2. cbn [forallb].
  now rewrite !digit_not_colon_or_period by apply digit_at_is_digit.
Qed.

Lemma field4_untouched (n : N) :
  replace_each colon_or_period (js "-") (field4 n) = field4 n.
Proof.
  apply replace_each_untouched. unfold field4, field3, field2. cbn [forallb].
  now rewrite !digit_not_colon_or_period by apply digit_at_is_digit.
Qed.

Lemma spec_timestamp_length (d : UTCDate) :
  List.length (spec_timestamp d) = 19%nat.
Proof. reflexivity. Qed.

(** For a four-digit year, cleaning and cutting the ISO string leaves the
    date and the time of day to the second. *)
Lemma timestamp_shape (d : UTCDate) :
  (0 <= year d <= 9999)%Z -> timestamp d = spec_timestamp d.
Proof.
  intros [Hlo Hhi]. unfold timestamp, toISOString, iso_year, substring0.
  apply Z.leb_le in Hlo. apply Z.leb_le in Hhi. rewrite Hlo, Hhi. cbn [andb].
  rewrite !replace_each_app, !field2_untouched, field4_untouched.
  reflexivity.
Qed.

(** ** C2: the derived filename *)

Lemma cleanPrompt_spec `{Host} (prompt : jsstring) :
  cleanPrompt prompt = spec_cleanPrompt kept_by_class prompt.
Proof.
  unfold cleanPrompt, spec_cleanPrompt, substring0.
  now rewrite strip_is_filter, collapse_is_replace_runs.
Qed.

(** What is left of the prompt is made of lower-case letters, digits and
    underscores. *)
Lemma collapse_whitespace_alphabet (s : jsstring) :
  forallb kept_by_class s = true ->
  forallb (fun c => is_lower c || is_digit c || (c =? 95)) (collapse_whitespace s)
  = true.
Proof.
  induction s as [|c t IH]; [reflexivity|].
  cbn [forallb collapse_whitespace]. intro H.
  apply andb_true_iff in H. destruct H as [Hc Ht]. specialize (IH Ht).
  destruct (is_whitespace c) eqn:Hw.
  - destruct t as [|c' t']; [reflexivity|].
    destruct (is_whitespace c'); [exact IH|].
    cbn [forallb]. rewrite IH. now rewrite orb_true_r.
  - cbn [forallb]. rewrite IH, andb_true_r.
    unfold kept_by_class in Hc. rewrite Hw, orb_false_r in Hc.
    now rewrite Hc.
Qed.

Lemma forallb_firstn {A} (f : A -> bool) (n : nat) (l : list A) :
  forallb f l = true -> forallb f (firstn n l) = true.
Proof.
  revert l; induction n as [|n IH]; intros [|x l]; simpl; auto.
  intro H. apply andb_true_iff in H. destruct H as [Hx Hl].
  now rewrite Hx, IH.
Qed.

Lemma cleanPrompt_alphabet `{Host} (prompt : jsstring) :
  forallb (fun c => is_lower c || is_digit c || (c =? 95)) (cleanPrompt prompt)
  = true.
Proof.
  rewrite cleanPrompt_spec. unfold spec_cleanPrompt.
  apply forallb_firstn, collapse_whitespace_alphabet.
  apply forallb_forall. intros c Hin. now apply filter_In in Hin.
Qed.

(** C2, as amended: [generateFilename] lower-cases the prompt, strips every
    character that is neither in [a-z0-9] nor whitespace (the class [\s], not
    the space character alone), turns each run of whitespace into one
    underscore, keeps 50 characters, and appends an underscore, the
    19-character [YYYY-MM-DDTHH-MM-SS] timestamp, a dot and the format.  The
    prompt ["A Red Fox, Running!"] gives [a_red_fox_running]. *)
Theorem generateFilename_derivation `{Host}
        (prompt format : jsstring) (w : World) :
  (0 <= year (now w) <= 9999)%Z ->
  generateFilename prompt format w
  = (Return (spec_filename kept_by_class prompt format (now w)), w)
  /\ (List.length (spec_cleanPrompt kept_by_class prompt) <= 50)%nat
  /\ List.length (spec_timestamp (now w)) = 19%nat
  /\ spec_cleanPrompt kept_by_class (js "A Red Fox, Running!")
     = js "a_red_fox_running".
Proof.
  intro Hyear. repeat split.
  - unfold generateFilename, bind, newDate, ret, spec_filename.
    now rewrite cleanPrompt_spec, timestamp_shape.
  - apply firstn_le_length.
Qed.

Lemma generateFilename_derivation_witness :
  (0 <= year (now world0) <= 9999)%Z
  /\ @generateFilename posix_host (js "A Red Fox, Running!") (js "png") world0
     = (Return (js "a_red_fox_running_2024-03-07T09-05-59.png"), world0).
Proof.
  split; [vm_compute; split; discriminate|].
  refine (eq_trans
    (proj1 (@generateFilename_derivation posix_host
              (js "A Red Fox, Running!") (js "png") world0 _)) _).
  - vm_compute; split; discriminate.
  - reflexivity.
Defined.

(** C2, as it is written, fails on a prompt with a tab: the source keeps the
    tab and turns it into an underscore, the claimed class drops it. *)
Lemma generateFilename_keeps_tab :
  @generateFilename posix_host [97; 9; 98] (js "png") world0
  = (Return (js "a_b_2024-03-07T09-05-59.png"), world0)
  /\ @spec_filename posix_host kept_as_claimed [97; 9; 98] (js "png") clock0
     = js "ab_2024-03-07T09-05-59.png"
  /\ fst (@generateFilename posix_host [97; 9; 98] (js "png") world0)
     <> Return (@spec_filename posix_host kept_as_claimed
                  [97; 9; 98] (js "png") (now world0)).
Proof.
  split; [reflexivity|]. split; [reflexivity|].
  vm_compute. discriminate.
Qed.

(** A prompt with a letter outside ASCII is lower-cased as a whole before
    the strip: in [Caf\u00e9 in Paris] the capitals survive as [c] and [p],
    and the accented letter, which no lower-casing brings into [a-z], is
    dropped. *)
Example cafe_in_paris :
  @generateFilename posix_host
     [67; 97; 102; 233; 32; 105; 110; 32; 80; 97; 114; 105; 115]
     (js "png") world0
  = (Return (js "caf_in_paris_2024-03-07T09-05-59.png"), world0).
Proof. reflexivity. Qed.

(* ================================================================== *)
(** ** The handlers, stage by stage *)

Section Stages.

Context {host : Host}.
Variable env : Env.

(** The path resolver reads the clock and the working directory and changes
    nothing. *)
Lemma resolveOutputPath_pure (outputPath : JsVal) (prompt format : jsstring)
      (w : World) :
  snd (resolveOutputPath outputPath prompt format w) = w.
Proof.
  unfold resolveOutputPath.
  destruct (truthy outputPath); [|reflexivity].
  destruct outputPath as [| |b|n|p|o]; try reflexivity.
  destruct (negb (isAbsolute p)); reflexivity.
Qed.

(** A request passes the validation exactly when its prompt is a string
    that is not blank, its path resolves and its model is supported; the
    only trace it leaves is the log line. *)
Lemma validateRequest_Return (args : option Args.t) (w w' : World)
      (v : Locals.t) :
  validateRequest env args w = (Return v, w') ->
  exists a s path,
    args = Some a /\ Args.prompt a = VStr s /\ trim s <> []
    /\ resolveOutputPath (Args.output_path a) (trim s)
         (Config.outputFormat (getConfig env)) w = (Return path, w)
    /\ v = defaulted env a (trim s) path
    /\ isModelSupported env (Locals.model v) = true
    /\ w' = logged (EvLog (js "info") (js "Starting image generation")) w.
Proof.
  unfold validateRequest. destruct args as [a|]; [|discriminate].
  destruct (Args.prompt a) as [| |b|n|s|o] eqn:Hp;
    cbn [truthy typeof_string as_string negb orb andb];
    try (rewrite ?orb_true_r; unfold throw; discriminate).
  destruct s as [|c s']; [discriminate|]. cbn [negb orb].
  destruct (trim (c :: s')) as [|c0 t0] eqn:Ht; [discriminate|].
  cbn [List.length Nat.eqb]. unfold bind at 1.
  pose proof (resolveOutputPath_pure (Args.output_path a) (c0 :: t0)
                (Config.outputFormat (getConfig env)) w) as Hpure.
  destruct (resolveOutputPath (Args.output_path a) (c0 :: t0)
              (Config.outputFormat (getConfig env)) w)
    as [[path|e] w1] eqn:Hr; [|discriminate].
  cbn [snd] in Hpure. subst w1.
  destruct (isModelSupported env _) eqn:Hm; cbn [negb]; [|discriminate].
  unfold bind, info, emit, ret. intro H. inversion H; subst; clear H.
  exists a, (c :: s'), path. rewrite Ht.
  split; [reflexivity|]. split; [exact Hp|]. split; [discriminate|].
  split; [exact Hr|]. split; [reflexivity|]. split; [exact Hm|reflexivity].
Qed.

(** A request that fails the validation leaves the world as it was. *)
Lemma validateRequest_Throw (args : option Args.t) (w w' : World)
      (e : Thrown) :
  validateRequest env args w = (Throw e, w') -> w' = w.
Proof.
  unfold validateRequest. destruct args as [a|];
    [|unfold throw; intro H; now inversion H].
  destruct (_ || _); [unfold throw; intro H; now inversion H|].
  unfold bind at 1.
  pose proof (resolveOutputPath_pure (Args.output_path a)
                (trim (as_string (Args.prompt a)))
                (Config.outputFormat (getConfig env)) w) as Hpure.
  destruct (resolveOutputPath _ _ _ w) as [[path|e'] w1];
    cbn [snd] in Hpure; subst w1.
  - destruct (negb _).
    + unfold throw; intro H; now inversion H.
    + unfold bind, info, emit, ret. discriminate.
  - intro H; now inversion H.
Qed.

(** Whatever the pipeline does, it only appends events that are not
    clean-ups, and it keeps the clock and the working directory. *)
Lemma runPipeline_trace (v : Locals.t) (w : World) :
  exists evs,
    trace (snd (runPipeline env v w)) = trace w ++ evs
    /\ count_cleanup evs = 0%nat.
Proof.
  unfold runPipeline, bind, call, throw, info, emit, ret,
    this_workingDirectory.
  destruct (generateImage env _ _) as [[result|e] t1]; cbn [snd trace].
  2:{ eexists; split; [reflexivity|reflexivity]. }
  destruct (List.length (GenResult.imageUrls result) =? 0)%nat; cbn [snd trace].
  1:{ eexists; split; [reflexivity|reflexivity]. }
  destruct (negb _); cbn [snd trace].
  1:{ eexists; split; [reflexivity|reflexivity]. }
  destruct (downloadImage env _ _) as [[buf|e] t2]; cbn [snd trace tracked].
  2:{ rewrite <- app_assoc. eexists; split; [reflexivity|reflexivity]. }
  destruct (mkdir env _ _) as [[[]|e] t3]; cbn [snd trace tracked].
  2:{ rewrite <- !app_assoc. eexists; split; [reflexivity|reflexivity]. }
  destruct (processImage env _ _ _) as [[pr|e] t4]; cbn [snd trace tracked].
  2:{ rewrite <- !app_assoc. eexists; split; [reflexivity|reflexivity]. }
  rewrite <- !app_assoc. eexists; split; [reflexivity|reflexivity].
Qed.

End Stages.

(* ================================================================== *)
(** ** C1: failures and clean-up *)

Lemma count_cleanup_app (a b : list Event) :
  count_cleanup (a ++ b) = (count_cleanup a + count_cleanup b)%nat.
Proof. unfold count_cleanup. now rewrite filter_app, length_app. Qed.

(** One step of the pipeline once the answer of a stage is known. *)
Ltac pipeline_step :=
  cbv beta iota;
  cbn [tracked trace workingDirectory now fst snd
       List.length Nat.eqb nth truthy negb].

(** The handler after a validation that passed: the [try] block with its
    [catch]. *)
Lemma handleGenerateImage_validated `{Host} (env : Env)
      (args : option Args.t) (w w1 : World) (v : Locals.t) :
  validateRequest env args w = (Return v, w1) ->
  handleGenerateImage env args w
  = try_catch (runPipeline env v)
              (fun err => bind cleanupAll (fun _ => throw err)) w1.
Proof. intro Hv. unfold handleGenerateImage, bind at 1. now rewrite Hv. Qed.

(** C1, as amended: an error of the validation is raised before the [try]
    block and propagates with the world untouched, without clean-up.  An
    error of any later stage makes the handler run [cleanupAll] and then
    throw the same error: when the remote submission throws, when it
    answers with no URL or with an empty first URL, when the download
    throws, when [mkdir] throws and when the processor throws, the handler
    ends with the events of the stages started so far followed by the
    clean-up, with nothing tracked, and with the error of that stage; no
    later stage is started.  Whenever the handler throws after the
    validation, [cleanupAll] has run exactly once. *)
Theorem handleGenerateImage_failure `{Host} (env : Env)
        (args : option Args.t) (w : World) :
  (forall e w',
      validateRequest env args w = (Throw e, w') ->
      handleGenerateImage env args w = (Throw e, w))
  /\ (forall v w1,
        validateRequest env args w = (Return v, w1) ->
        let req := generationRequest v in
        let dir := dirname (Locals.resolvedOutputPath v) in
        let opts := processOptions v in
        (forall e t1,
            generateImage env req (tracked w1) = (Throw e, t1) ->
            handleGenerateImage env args w
            = (Throw e, cleanedUp w1 [EvGenerateImage req]))
        /\ (forall result t1,
              generateImage env req (tracked w1) = (Return result, t1) ->
              (GenResult.imageUrls result = [] ->
               handleGenerateImage env args w
               = (Throw (processingError (js "No images were generated")),
                  cleanedUp w1 [EvGenerateImage req]))
              /\ (forall rest,
                    GenResult.imageUrls result = [] :: rest ->
                    handleGenerateImage env args w
                    = (Throw (processingError
                                (js "No valid image URL returned")),
                       cleanedUp w1 [EvGenerateImage req]))
              /\ (forall url rest,
                    GenResult.imageUrls result = url :: rest -> url <> [] ->
                    (forall e t2,
                        downloadImage env url t1 = (Throw e, t2) ->
                        handleGenerateImage env args w
                        = (Throw e,
                           cleanedUp w1 [EvGenerateImage req;
                                         EvDownloadImage url]))
                    /\ (forall buf t2,
                          downloadImage env url t1 = (Return buf, t2) ->
                          (forall e t3,
                              mkdir env dir t2 = (Throw e, t3) ->
                              handleGenerateImage env args w
                              = (Throw e,
                                 cleanedUp w1 [EvGenerateImage req;
                                               EvDownloadImage url;
                                               EvMkdir dir]))
                          /\ (forall t3 e t4,
                                mkdir env dir t2 = (Return tt, t3) ->
                                processImage env buf opts t3 = (Throw e, t4) ->
                                handleGenerateImage env args w
                                = (Throw e,
                                   cleanedUp w1 [EvGenerateImage req;
                                                 EvDownloadImage url;
                                                 EvMkdir dir;
                                                 EvProcessImage opts]))))))
  /\ (forall e w',
        handleGenerateImage env args w = (Throw e, w') ->
        (validateRequest env args w = (Throw e, w) /\ w' = w)
        \/ (exists v w1 w2,
              validateRequest env args w = (Return v, w1)
              /\ runPipeline env v w1 = (Throw e, w2)
              /\ tracked w' = []
              /\ trace w' = trace w2 ++ [EvCleanupAll]
              /\ count_cleanup (trace w') = S (count_cleanup (trace w)))).
Proof.
  split; [|split].
  - intros e w' Hv. apply validateRequest_Throw in Hv as Hw. subst w'.
    unfold handleGenerateImage, bind. now rewrite Hv.
  - intros v w1 Hv. cbv zeta.
    rewrite (handleGenerateImage_validated env args w w1 v Hv).
    unfold try_catch, runPipeline, bind, call, cleanupAll, throw, cleanedUp.
    split.
    { intros e t1 Hg. rewrite Hg. pipeline_step. now rewrite <- ?app_assoc. }
    intros result t1 Hg. rewrite Hg. pipeline_step. split; [|split].
    { intros Hurls. rewrite Hurls. pipeline_step.
      now rewrite <- ?app_assoc. }
    { intros rest Hurls. rewrite Hurls. pipeline_step.
      now rewrite <- ?app_assoc. }
    intros url rest Hurls Hurl. rewrite Hurls.
    destruct url as [|c url']; [contradiction|]. pipeline_step. split.
    { intros e t2 Hd. rewrite Hd. pipeline_step.
      now rewrite <- ?app_assoc. }
    intros buf t2 Hd. rewrite Hd. pipeline_step. split.
    { intros e t3 Hm. rewrite Hm. pipeline_step.
      now rewrite <- ?app_assoc. }
    intros t3 e t4 Hm Hp. rewrite Hm. pipeline_step. rewrite Hp.
    pipeline_step. now rewrite <- ?app_assoc.
  - intros e w'. unfold handleGenerateImage, bind.
    destruct (validateRequest env args w) as [[v|e0] w1] eqn:Hv.
    + unfold try_catch.
      pose proof (runPipeline_trace env v w1) as [evs [Htr Hcount]].
      destruct (runPipeline env v w1) as [[resp|e1] w2] eqn:Hp;
        [discriminate|].
      unfold bind, cleanupAll, throw. intro Heq.
      inversion Heq; subst; clear Heq.
      right. exists v, w1, w2. cbn [tracked trace snd] in *.
      split; [reflexivity|]. split; [exact Hp|].
      split; [reflexivity|]. split; [reflexivity|].
      apply validateRequest_Return in Hv.
      destruct Hv as (a & s & path & _ & _ & _ & _ & _ & _ & Hw1).
      rewrite Htr, Hw1. unfold logged. cbn [trace].
      rewrite !count_cleanup_app, Hcount. cbn. lia.
    + intro Heq. inversion Heq; subst; clear Heq.
      apply validateRequest_Throw in Hv as Hw. subst w'. left. now split.
Qed.

Lemma handleGenerateImage_failure_witness :
  let env := stubEnv oneUrl downloadFails in
  let args := Some (promptOnly (VStr (js "sunset over mountains"))) in
  let v := defaulted env (promptOnly (VStr (js "sunset over mountains")))
             (js "sunset over mountains")
             (js "/srv/images/sunset_over_mountains_2024-03-07T09-05-59.png") in
  let w1 := logged (EvLog (js "info") (js "Starting image generation"))
              worldTracking in
  let url := js "https://replicate.delivery/out.webp" in
  @validateRequest posix_host env args worldTracking = (Return v, w1)
  /\ downloadImage env url (js "/tmp/flux-download.part" :: tracked w1)
     = (downloadFails, js "/tmp/flux-download.part" :: tracked w1)
  /\ @handleGenerateImage posix_host env args worldTracking
     = (Throw (processingError (js "Failed to download image")),
        cleanedUp w1 [EvGenerateImage (generationRequest v);
                      EvDownloadImage url])
  /\ tracked (snd (@handleGenerateImage posix_host env args worldTracking))
     = []
  /\ count_cleanup
       (trace (snd (@handleGenerateImage posix_host env args worldTracking)))
     = 1%nat.
Proof.
  intros env args v w1 url.
  assert (Hv : @validateRequest posix_host env args worldTracking
               = (Return v, w1)) by reflexivity.
  split; [exact Hv|]. split; [reflexivity|].
  destruct (@handleGenerateImage_failure posix_host env args worldTracking)
    as (_ & Hstages & _).
  destruct (Hstages v w1 Hv) as (_ & Hanswered).
  destruct (Hanswered {| GenResult.imageUrls := oneUrl;
                         GenResult.processingTime := 1234 |}
              (js "/tmp/flux-download.part" :: tracked w1) eq_refl)
    as (_ & _ & Hurl).
  destruct (Hurl url [] eq_refl ltac:(discriminate)) as (Hdownload & _).
  rewrite (Hdownload (processingError (js "Failed to download image"))
             (js "/tmp/flux-download.part" :: tracked w1) eq_refl).
  split; [reflexivity|]. split; reflexivity.
Defined.

(** C1, as it is written, fails when the failing stage is the validation:
    the error propagates and [cleanupAll] has not run; the path tracked
    before the call is still tracked. *)
Lemma validation_failure_skips_cleanup :
  let run := @handleGenerateImage posix_host (stubEnv oneUrl pngBytes)
               (Some (promptOnly (VStr (js "   ")))) worldTracking in
  fst run = Throw (validationError
                     (js "Prompt is required and must be a non-empty string"))
  /\ count_cleanup (trace (snd run)) = 0%nat
  /\ tracked (snd run) = [js "/tmp/flux-earlier.tmp"].
Proof. repeat split. Qed.

(* ================================================================== *)
(** ** C3: the envelope of the tool-call handler *)

Lemma str_eqb_refl (s : jsstring) : str_eqb s s = true.
Proof. induction s as [|c t IH]; simpl; [reflexivity|]. now rewrite N.eqb_refl. Qed.

(** A summary is a success payload: one text block, no error flag. *)
Lemma runPipeline_Return `{Host} (env : Env) (v : Locals.t) (w w' : World)
      (resp : Response) :
  runPipeline env v w = (Return resp, w') ->
  exists summary, resp = successResponse summary.
Proof.
  unfold runPipeline, bind, call, throw, info, emit, ret,
    this_workingDirectory.
  destruct (generateImage env _ _) as [[result|e] t1]; [|discriminate].
  destruct (List.length (GenResult.imageUrls result) =? 0)%nat; [discriminate|].
  destruct (negb _); [discriminate|].
  destruct (downloadImage env _ _) as [[buf|e] t2]; [|discriminate].
  destruct (mkdir env _ _) as [[[]|e] t3]; [|discriminate].
  destruct (processImage env _ _ _) as [[pr|e] t4]; [|discriminate].
  intro Heq. inversion Heq. eexists. reflexivity.
Qed.

Lemma handleGenerateImage_Return `{Host} (env : Env) (args : option Args.t)
      (w w' : World) (resp : Response) :
  handleGenerateImage env args w = (Return resp, w') ->
  exists v w1, validateRequest env args w = (Return v, w1)
               /\ runPipeline env v w1 = (Return resp, w').
Proof.
  unfold handleGenerateImage, bind, try_catch.
  destruct (validateRequest env args w) as [[v|e0] w1]; [|discriminate].
  destruct (runPipeline env v w1) as [[r|e1] w2] eqn:Hp.
  - intro Heq. inversion Heq; subst. now exists v, w1.
  - unfold bind, cleanupAll, throw. discriminate.
Qed.

(** C3, as amended: a call of [generate_image] always gets a payload back and
    never an exception: the success payload of [handleGenerateImage], or an
    error payload with the flag set whose text is ["Error: "] and the message
    of the error, any error that is not an [McpError] being replaced by the
    processing error ["Unknown error occurred"].  A call of any other tool is
    answered by throwing the validation error ["Unknown tool: <name>"], which
    does leave the handler. *)
Theorem callToolHandler_envelope `{Host} (env : Env) (args : option Args.t)
        (w : World) :
  (exists resp w',
      callToolHandler env (js "generate_image") args w = (Return resp, w')
      /\ ((handleGenerateImage env args w = (Return resp, w')
           /\ isError resp = None)
          \/ (exists e w1 kind message,
                handleGenerateImage env args w = (Throw e, w1)
                /\ McpError kind message
                   = (if instanceof_McpError e then e
                      else processingError (js "Unknown error occurred"))
                /\ resp = errorPayload (McpError kind message)
                /\ text_of_first resp = js "Error: " ++ message
                /\ isError resp = Some true
                /\ w' = logged (EvLog (js "error")
                                  (js "Image generation failed")) w1)))
  /\ (forall name, str_eqb name (js "generate_image") = false ->
        callToolHandler env name args w
        = (Throw (validationError (js "Unknown tool: " ++ name)), w)).
Proof.
  split.
  - unfold callToolHandler. rewrite str_eqb_refl. unfold try_catch.
    destruct (handleGenerateImage env args w) as [[resp|e] w1] eqn:Hh.
    + exists resp, w1. split; [reflexivity|]. left. split; [reflexivity|].
      apply handleGenerateImage_Return in Hh. destruct Hh as (v & w0 & _ & Hp).
      apply runPipeline_Return in Hp. destruct Hp as [summary ->]. reflexivity.
    + unfold bind, error, emit, ret.
      eexists. eexists. split; [reflexivity|]. right.
      destruct e as [kind message|message].
      * exists (McpError kind message), w1, kind, message. repeat split.
      * exists (NativeError message), w1, Processing,
          (js "Unknown error occurred"). repeat split.
  - intros name Hname. unfold callToolHandler. now rewrite Hname.
Qed.

Lemma callToolHandler_envelope_witness :
  str_eqb (js "list_models") (js "generate_image") = false
  /\ @callToolHandler posix_host (stubEnv oneUrl pngBytes) (js "list_models")
       (Some (promptOnly (VStr (js "sunset")))) world0
     = (Throw (validationError (js "Unknown tool: list_models")), world0).
Proof.
  split; [reflexivity|].
  apply (proj2 (@callToolHandler_envelope posix_host (stubEnv oneUrl pngBytes)
                  (Some (promptOnly (VStr (js "sunset")))) world0)).
  reflexivity.
Defined.

(** C3, as it is written, fails for a tool name other than [generate_image]:
    the handler returns no payload; the exception escapes it. *)
Lemma unknown_tool_escapes :
  @callToolHandler posix_host (stubEnv oneUrl pngBytes) (js "list_models")
    (Some (promptOnly (VStr (js "sunset")))) world0
  = (Throw (McpError Validation (js "Unknown tool: list_models")), world0)
  /\ forall resp w',
       @callToolHandler posix_host (stubEnv oneUrl pngBytes) (js "list_models")
         (Some (promptOnly (VStr (js "sunset")))) world0
       <> (Return resp, w').
Proof. split; [reflexivity|]. intros resp w'. vm_compute. discriminate. Qed.

(* ================================================================== *)
(** ** C6: the prompt *)

Lemma trimStart_blank (s : jsstring) :
  forallb is_whitespace s = true -> trimStart s = [].
Proof.
  induction s as [|c t IH]; simpl; [reflexivity|].
  intro H. apply andb_true_iff in H. destruct H as [Hc Ht].
  rewrite Hc. auto.
Qed.

Lemma trim_blank (s : jsstring) :
  forallb is_whitespace s = true -> trim s = [].
Proof. intro H. unfold trim. now rewrite (trimStart_blank s H). Qed.

(** The condition of line 163 holds for every such prompt. *)
Lemma prompt_condition (p : JsVal) :
  prompt_missing_or_blank p = true ->
  negb (truthy p) || negb (typeof_string p)
  || (List.length (trim (as_string p)) =? 0)%nat = true.
Proof.
  destruct p as [| |b|n|s|o]; cbn [prompt_missing_or_blank];
    try (intros _; cbn [typeof_string negb]; now rewrite orb_true_r).
  intro Hs. cbn [as_string]. rewrite (trim_blank s Hs).
  now rewrite orb_true_r.
Qed.

Lemma validateRequest_blank_prompt `{Host} (env : Env) (a : Args.t) (w : World) :
  prompt_missing_or_blank (Args.prompt a) = true ->
  validateRequest env (Some a) w
  = (Throw (validationError
              (js "Prompt is required and must be a non-empty string")), w).
Proof.
  intro Hp. unfold validateRequest. now rewrite (prompt_condition _ Hp).
Qed.

(** When the prompt of an argument object is absent, is not a string, is
    empty or holds whitespace only, [handleGenerateImage] throws the
    validation error and the world is as before: no remote call, no
    filesystem access, no clean-up.  The tool-call handler turns it into the
    error payload and adds one log line to the trace, nothing else. *)
Theorem blank_prompt_rejected `{Host} (env : Env) (a : Args.t) (w : World) :
  prompt_missing_or_blank (Args.prompt a) = true ->
  let err := validationError
               (js "Prompt is required and must be a non-empty string") in
  handleGenerateImage env (Some a) w = (Throw err, w)
  /\ callToolHandler env (js "generate_image") (Some a) w
     = (Return (errorPayload err),
        logged (EvLog (js "error") (js "Image generation failed")) w)
  /\ filter is_io
       (trace (snd (callToolHandler env (js "generate_image") (Some a) w)))
     = filter is_io (trace w).
Proof.
  intros Hp err.
  assert (Hh : handleGenerateImage env (Some a) w = (Throw err, w)).
  { unfold handleGenerateImage, bind.
    now rewrite (validateRequest_blank_prompt env a w Hp). }
  assert (Hc : callToolHandler env (js "generate_image") (Some a) w
               = (Return (errorPayload err),
                  logged (EvLog (js "error") (js "Image generation failed")) w)).
  { unfold callToolHandler. rewrite str_eqb_refl. unfold try_catch.
    rewrite Hh. reflexivity. }
  split; [exact Hh|]. split; [exact Hc|].
  rewrite Hc. cbn [snd logged trace]. rewrite filter_app. cbn.
  now rewrite app_nil_r.
Qed.

Lemma blank_prompt_rejected_witness :
  prompt_missing_or_blank (VStr [32; 9; 10]) = true
  /\ @handleGenerateImage posix_host (stubEnv oneUrl pngBytes)
       (Some (promptOnly (VStr [32; 9; 10]))) worldTracking
     = (Throw (validationError
                 (js "Prompt is required and must be a non-empty string")),
        worldTracking).
Proof.
  split; [reflexivity|].
  apply (@blank_prompt_rejected posix_host (stubEnv oneUrl pngBytes)
           (promptOnly (VStr [32; 9; 10])) worldTracking).
  reflexivity.
Defined.

(** A call that carries no argument object at all fails on the property
    access of line 163 with a [TypeError], before anything else happens. *)
Lemma no_arguments_is_a_TypeError `{Host} (env : Env) (w : World) :
  handleGenerateImage env None w
  = (Throw (NativeError (js "TypeError: Cannot read properties of undefined")),
     w).
Proof. reflexivity. Qed.

(** C6 at the failing input: a [generate_image] call without an argument
    object has no prompt, yet it is not answered with the validation error
    of line 164.  Reading [args.prompt] throws a [TypeError], which the
    tool-call handler reports as the processing error
    ["Unknown error occurred"]; nothing but the error log line happens.
    With an argument object the same absent prompt does get the validation
    error. *)
Theorem no_arguments_not_a_validation_error `{Host} (env : Env) (w : World) :
  callToolHandler env (js "generate_image") None w
  = (Return (errorPayload (processingError (js "Unknown error occurred"))),
     logged (EvLog (js "error") (js "Image generation failed")) w)
  /\ (forall message,
        handleGenerateImage env None w <> (Throw (validationError message), w))
  /\ text_of_first
       (errorPayload (processingError (js "Unknown error occurred")))
     <> js "Error: Prompt is required and must be a non-empty string"
  /\ callToolHandler env (js "generate_image")
       (Some (promptOnly VUndefined)) w
     = (Return (errorPayload
                  (validationError
                     (js "Prompt is required and must be a non-empty string"))),
        logged (EvLog (js "error") (js "Image generation failed")) w).
Proof.
  split; [reflexivity|]. split; [|split].
  - intros message Heq. rewrite no_arguments_is_a_TypeError in Heq.
    discriminate Heq.
  - vm_compute. discriminate.
  - unfold callToolHandler. rewrite str_eqb_refl.
    unfold try_catch, handleGenerateImage, bind at 1.
    rewrite validateRequest_blank_prompt by reflexivity. reflexivity.
Qed.

(* ================================================================== *)
(** ** C7 and C10: the output path *)

(** C10: an [output_path] that is the empty string is falsy, so the resolver
    takes the branch of an absent path: it throws nothing and answers with
    the generated filename joined to the working directory.  On a POSIX
    host the empty string is not an absolute path. *)
Theorem empty_output_path_is_absent `{Host} (prompt format : jsstring)
        (w : World) :
  resolveOutputPath (VStr []) prompt format w
  = (Return (join (workingDirectory w)
                  (cleanPrompt prompt ++ js "_" ++ timestamp (now w)
                   ++ js "." ++ format)), w)
  /\ resolveOutputPath (VStr []) prompt format w
     = resolveOutputPath VUndefined prompt format w
  /\ posix_isAbsolute [] = false.
Proof. repeat split. Qed.

(** C7, as amended: a supplied [output_path] that is a non-empty string and
    not absolute makes [handleGenerateImage] throw a validation error with
    the world as before (no filesystem or remote access); one that is
    absolute is what the resolver returns, unchanged. *)
Theorem output_path_must_be_absolute `{Host} (env : Env) (a : Args.t)
        (w : World) (p : jsstring) :
  Args.output_path a = VStr p ->
  p <> [] ->
  (isAbsolute p = false ->
   exists message,
     handleGenerateImage env (Some a) w = (Throw (validationError message), w))
  /\ (isAbsolute p = true ->
      forall prompt format,
        resolveOutputPath (VStr p) prompt format w = (Return p, w)).
Proof.
  intros Ha Hne. split.
  - intro Hrel. unfold handleGenerateImage, bind at 1, validateRequest.
    destruct (_ || _); [eexists; reflexivity|].
    unfold bind at 1. rewrite Ha. unfold resolveOutputPath.
    destruct p as [|c p']; [contradiction|].
    cbn [truthy]. rewrite Hrel. cbn [negb]. eexists; reflexivity.
  - intros Habs prompt format. unfold resolveOutputPath.
    destruct p as [|c p']; [contradiction|].
    cbn [truthy]. now rewrite Habs.
Qed.

Lemma output_path_must_be_absolute_witness :
  let a := {| Args.prompt := VStr (js "sunset"); Args.model := VUndefined;
              Args.output_path := VStr (js "out/sunset.png");
              Args.width := VUndefined; Args.height := VUndefined;
              Args.quality := VUndefined |} in
  Args.output_path a = VStr (js "out/sunset.png")
  /\ js "out/sunset.png" <> []
  /\ @isAbsolute posix_host (js "out/sunset.png") = false
  /\ exists message,
       @handleGenerateImage posix_host (stubEnv oneUrl pngBytes) (Some a)
         world0 = (Throw (validationError message), world0).
Proof.
  intro a.
  split; [reflexivity|]. split; [discriminate|]. split; [reflexivity|].
  apply (proj1 (@output_path_must_be_absolute posix_host
                  (stubEnv oneUrl pngBytes) a world0 (js "out/sunset.png")
                  eq_refl ltac:(discriminate))).
  reflexivity.
Defined.

(** C7, as it is written, fails for the empty string: it is not an absolute
    path, yet the call raises no validation error and goes on to the remote
    service and to the filesystem. *)
Lemma empty_output_path_not_rejected :
  let a := {| Args.prompt := VStr (js "sunset"); Args.model := VUndefined;
              Args.output_path := VStr [];
              Args.width := VUndefined; Args.height := VUndefined;
              Args.quality := VUndefined |} in
  let run := @handleGenerateImage posix_host (stubEnv oneUrl pngBytes)
               (Some a) world0 in
  @isAbsolute posix_host [] = false
  /\ (exists resp, fst run = Return resp)
  /\ existsb is_io (trace (snd run)) = true.
Proof.
  intros a run. split; [reflexivity|]. split; [|reflexivity].
  eexists. reflexivity.
Qed.

(* ================================================================== *)
(** ** C8: no asset *)



(* ================================================================== *)
(** ** C9: the success summary *)

(** [Math.round(n / 1024)] is the integer nearest to [n / 1024], the upper
    one at a tie. *)
Lemma Math_round_kilobytes (n : Z) :
  Math_round (inject_Z n / 1024)%Q = ((n + 512) / 1024)%Z
  /\ (1024 * Math_round (inject_Z n / 1024)%Q - 512 <= n
      < 1024 * Math_round (inject_Z n / 1024)%Q + 512)%Z.
Proof.
  assert (Heq : Math_round (inject_Z n / 1024)%Q = ((n + 512) / 1024)%Z).
  { unfold Math_round, Qfloor, Qplus, Qdiv, Qmult, Qinv, inject_Z.
    cbn [Qnum Qden Pos.mul].
    replace (n * 1 * 2 + 1 * 1024)%Z with ((n + 512) * 2)%Z by lia.
    change 2048%Z with (1024 * 2)%Z.
    now rewrite Z.div_mul_cancel_r by discriminate. }
  split; [exact Heq|]. rewrite Heq.
  pose proof (Z.div_mod (n + 512) 1024 ltac:(discriminate)) as Hdm.
  pose proof (Z.mod_pos_bound (n + 512) 1024 ltac:(reflexivity)) as Hb.
  lia.
Qed.

Lemma forallb_skipn {A} (f : A -> bool) (n : nat) (l : list A) :
  forallb f l = true -> forallb f (skipn n l) = true.
Proof.
  revert l; induction n as [|n IH]; intros [|x l]; simpl; auto.
  intro H. apply andb_true_iff in H. now apply IH.
Qed.

(** Reading back what the decimal printer wrote. *)
Lemma of_uint_acc_value (d : Decimal.uint) (acc : positive) :
  Npos (Pos.of_uint_acc d acc) = digits_value_from (Npos acc) (uint_codes d).
Proof.
  revert acc. induction d; intro acc; cbn [Pos.of_uint_acc uint_codes];
    [reflexivity|..];
    rewrite IHd; unfold digits_value_from; cbn [fold_left]; f_equal; lia.
Qed.

Lemma of_uint_value (d : Decimal.uint) :
  N.of_uint d = digits_value (uint_codes d).
Proof.
  unfold N.of_uint, digits_value.
  induction d; cbn [Pos.of_uint uint_codes]; [reflexivity | exact IHd|..];
    rewrite of_uint_acc_value; reflexivity.
Qed.

Lemma dec_N_value (n : N) : digits_value (dec_N n) = n.
Proof.
  unfold dec_N. rewrite <- of_uint_value. apply DecimalN.Unsigned.of_to.
Qed.

Lemma zeros_value (k : nat) (s : jsstring) :
  digits_value (zeros k ++ s) = digits_value s.
Proof. induction k; [reflexivity | exact IHk]. Qed.

(** The magnitude that [toFixed] works on is the absolute value. *)
Lemma magnitude_is_Qabs (x : Q) :
  (if negb (Qle_bool 0 x) then Qopp x else x) = Qabs x.
Proof.
  destruct x as [n d]. unfold Qle_bool, Qopp, Qabs. cbn [Qnum Qden].
  rewrite Z.mul_1_r. change (0 * Z.pos d)%Z with 0%Z.
  destruct (0 <=? n)%Z eqn:Hn; cbn [negb].
  - apply Z.leb_le in Hn. now rewrite Z.abs_eq.
  - apply Z.leb_gt in Hn. rewrite Z.abs_neq by lia. reflexivity.
Qed.

(** Below [10^21] in magnitude, [toFixed(3)] prints a minus sign for a
    negative number, then at least one digit, a point and exactly three
    digits; read without the point, the digits are the integer nearest to a
    thousand times the magnitude, the larger one at a tie. *)
Lemma toFixed3_thousandths (x : Q) :
  (Qabs x < inject_Z (10 ^ 21))%Q ->
  exists whole frac thousandths,
    toFixed3 x
    = (if Qle_bool 0 x then [] else js "-") ++ whole ++ js "." ++ frac
    /\ whole <> [] /\ forallb is_digit whole = true
    /\ List.length frac = 3%nat /\ forallb is_digit frac = true
    /\ digits_value (whole ++ frac) = thousandths
    /\ (inject_Z (Z.of_N thousandths) <= Qabs x * 1000 + (1 # 2)
        < inject_Z (Z.of_N thousandths + 1))%Q.
Proof.
  intro Hsmall. unfold toFixed3. rewrite magnitude_is_Qabs.
  assert (Hbranch : Qle_bool (inject_Z (10 ^ 21)) (Qabs x) = false).
  { destruct (Qle_bool (inject_Z (10 ^ 21)) (Qabs x)) eqn:Hle; [|reflexivity].
    apply Qle_bool_iff in Hle. exfalso. exact (Qlt_not_le _ _ Hsmall Hle). }
  rewrite Hbranch.
  set (y := (Qabs x * 1000 + (1 # 2))%Q).
  set (n := Z.to_N (Qfloor y)).
  set (m := if (List.length (dec_N n) <=? 3)%nat
            then zeros (4 - List.length (dec_N n)) ++ dec_N n else dec_N n).
  assert (Hdigits : forallb is_digit m = true).
  { unfold m. destruct (_ <=? _)%nat; [|apply dec_N_digits].
    rewrite forallb_app, zeros_digits, dec_N_digits. reflexivity. }
  assert (Hlen : (4 <= List.length m)%nat).
  { unfold m. destruct (List.length (dec_N n) <=? 3)%nat eqn:Hle.
    - apply Nat.leb_le in Hle. rewrite length_app, zeros_length. lia.
    - apply Nat.leb_gt in Hle. lia. }
  assert (Hvalue : digits_value m = n).
  { unfold m. destruct (_ <=? _)%nat; [rewrite zeros_value|];
      apply dec_N_value. }
  assert (Hfloor : (0 <= Qfloor y)%Z).
  { change 0%Z with (Qfloor 0). apply Qfloor_resp_le. unfold y.
    apply (Qle_trans _ (0 + 0)); [apply Qle_refl|].
    apply Qplus_le_compat; [|discriminate].
    apply Qmult_le_0_compat; [apply Qabs_nonneg | discriminate]. }
  exists (firstn (List.length m - 3) m), (skipn (List.length m - 3) m), n.
  split; [destruct (Qle_bool 0 x); reflexivity|].
  split.
  { intro Hnil. apply (f_equal (@List.length N)) in Hnil.
    rewrite length_firstn in Hnil. cbn in Hnil. lia. }
  split; [now apply forallb_firstn|].
  split; [rewrite length_skipn; lia|].
  split; [now apply forallb_skipn|].
  split; [now rewrite firstn_skipn|].
  unfold n. rewrite Z2N.id by exact Hfloor.
  split; [apply Qfloor_le | apply Qlt_floor].
Qed.

(** Up to [2^53], [Number::toString] writes the integer out in full. *)
Lemma dec_Z_value (z : Z) :
  (0 <= z < 2 ^ 53)%Z -> digits_value (dec_Z z) = Z.to_N z.
Proof.
  intros [Hlo Hhi]. destruct z as [|p|p]; [reflexivity| |lia].
  cbn [dec_Z Z.to_N]. unfold Number_toString, toNumber.
  assert (Hp : N.pos p < 2 ^ 53).
  { change (2 ^ 53) with (Z.to_N (2 ^ 53)). change (N.pos p) with (Z.to_N (Z.pos p)).
    apply Z2N.inj_lt; [lia | discriminate | exact Hhi]. }
  assert (Hbits : (N.size (N.pos p) <=? 53) = true).
  { apply N.leb_le. rewrite N.size_log2 by discriminate.
    apply N.le_succ_l. apply N.log2_lt_pow2; [reflexivity | exact Hp]. }
  rewrite Hbits.
  assert (Hfin : (2 ^ 1024 <=? N.pos p) = false).
  { apply N.leb_gt. apply (N.lt_trans _ (2 ^ 53)); [exact Hp | reflexivity]. }
  assert (Hsafe : (N.pos p <? 2 ^ 53) = true) by (apply N.ltb_lt; exact Hp).
  rewrite Hfin, Hsafe. apply dec_N_value.
Qed.

(** A pipeline that returns went through every stage: the remote client gave
    at least one URL, the first one was downloaded, the directory was made,
    the processor answered, and the response is the summary of what the
    collaborators returned. *)
Lemma runPipeline_success `{Host} (env : Env) (v : Locals.t) (w w' : World)
      (resp : Response) :
  runPipeline env v w = (Return resp, w') ->
  exists result url rest t1 buf t2 t3 processResult t4,
    generateImage env (generationRequest v) (tracked w) = (Return result, t1)
    /\ GenResult.imageUrls result = url :: rest
    /\ downloadImage env url t1 = (Return buf, t2)
    /\ mkdir env (dirname (Locals.resolvedOutputPath v)) t2 = (Return tt, t3)
    /\ processImage env buf (processOptions v) t3 = (Return processResult, t4)
    /\ resp = successResponse
                (successText processResult (Locals.model v) result
                   (calculateCost env (Locals.model v)) (workingDirectory w))
    /\ trace w'
       = trace w
         ++ [EvGenerateImage (generationRequest v);
             EvDownloadImage url;
             EvMkdir (dirname (Locals.resolvedOutputPath v));
             EvProcessImage (processOptions v);
             EvLog (js "info") (js "Image generation completed")].
Proof.
  unfold runPipeline, bind, call, throw, info, emit, ret,
    this_workingDirectory.
  destruct (generateImage env _ _) as [[result|e] t1] eqn:Hg; [|discriminate].
  destruct (GenResult.imageUrls result) as [|url rest] eqn:Hurls;
    [discriminate|].
  cbn [List.length Nat.eqb nth].
  destruct (negb _); [discriminate|]. cbn [tracked trace].
  destruct (downloadImage env _ _) as [[buf|e] t2] eqn:Hd; [|discriminate].
  cbn [tracked trace].
  destruct (mkdir env _ _) as [[[]|e] t3] eqn:Hm; [|discriminate].
  cbn [tracked trace].
  destruct (processImage env _ _ _) as [[pr|e] t4] eqn:Hpr; [|discriminate].
  cbn [tracked trace workingDirectory].
  intro Heq. inversion Heq; subst; clear Heq.
  exists result, url, rest, t1, buf, t2, t3, pr, t4. cbn [trace].
  rewrite <- !app_assoc. repeat split; assumption.
Qed.

(** C9: with costs below [10^21] in magnitude, a call that succeeds
    answers with one text block and no error flag.  The text gives the
    output path, the model, the dimensions as [<width>x<height>], the file
    size in kilobytes as the integer nearest to [fileSize / 1024] (195 for
    200000 bytes), the processing time in milliseconds, the cost with
    exactly three decimals, and the working directory; the figures are the
    ones the remote client and the processor returned for this request.
    The digits of the cost, read without the point, are the integer nearest
    to a thousand times the cost of the model, and an integer up to [2^53]
    is written out in full. *)
Theorem success_summary `{Host} (env : Env) (args : option Args.t)
        (w w' : World) (resp : Response) :
  (forall model,
      (Qabs (calculateCost env model) < inject_Z (10 ^ 21))%Q) ->
  handleGenerateImage env args w = (Return resp, w') ->
  exists v w1 result processResult whole frac thousandths,
    let cost := calculateCost env (Locals.model v) in
    validateRequest env args w = (Return v, w1)
    /\ (exists t t', generateImage env (generationRequest v) t
                     = (Return result, t'))
    /\ (exists buf t t', processImage env buf (processOptions v) t
                         = (Return processResult, t'))
    /\ content resp
       = [ {| type := js "text";
              text :=
                js "Image generated successfully!" ++ nl ++ nl
                ++ js "Output: " ++ ProcessResult.outputPath processResult ++ nl
                ++ js "Model: " ++ ToString (Locals.model v) ++ nl
                ++ js "Dimensions: " ++ dec_Z (ProcessResult.width processResult)
                ++ js "x" ++ dec_Z (ProcessResult.height processResult) ++ nl
                ++ js "File size: "
                ++ dec_Z ((ProcessResult.fileSize processResult + 512) / 1024)
                ++ js "KB" ++ nl
                ++ js "Processing time: "
                ++ dec_Z (GenResult.processingTime result) ++ js "ms" ++ nl
                ++ js "Cost: $"
                ++ ((if Qle_bool 0 cost then [] else js "-")
                    ++ whole ++ js "." ++ frac) ++ nl
                ++ js "Working Directory: " ++ workingDirectory w |} ]
    /\ isError resp = None
    /\ (if Qle_bool 0 cost then [] else js "-") ++ whole ++ js "." ++ frac
       = toFixed3 cost
    /\ whole <> [] /\ forallb is_digit whole = true
    /\ List.length frac = 3%nat /\ forallb is_digit frac = true
    /\ digits_value (whole ++ frac) = thousandths
    /\ (inject_Z (Z.of_N thousandths) <= Qabs cost * 1000 + (1 # 2)
        < inject_Z (Z.of_N thousandths + 1))%Q
    /\ (1024 * ((ProcessResult.fileSize processResult + 512) / 1024) - 512
        <= ProcessResult.fileSize processResult
        < 1024 * ((ProcessResult.fileSize processResult + 512) / 1024) + 512)%Z
    /\ (forall z, (0 <= z < 2 ^ 53)%Z -> digits_value (dec_Z z) = Z.to_N z)
    /\ dec_Z ((200000 + 512) / 1024) = js "195".
Proof.
  intros Hcost Hh. apply handleGenerateImage_Return in Hh.
  destruct Hh as (v & w1 & Hv & Hp).
  pose proof (validateRequest_Return env args w w1 v Hv)
    as (a & s & path & _ & _ & _ & _ & _ & _ & Hw1).
  apply runPipeline_success in Hp.
  destruct Hp as (result & url & rest & t1 & buf & t2 & t3 & pr & t4
                  & Hg & _ & _ & _ & Hpr & Hresp & _).
  destruct (toFixed3_thousandths (calculateCost env (Locals.model v))
              (Hcost (Locals.model v)))
    as (whole & frac & n & Hfix & Hwhole & Hwd & Hlen & Hfd & Hval & Hnear).
  destruct (Math_round_kilobytes (ProcessResult.fileSize pr)) as [Hkb Hround].
  exists v, w1, result, pr, whole, frac, n. cbv zeta.
  split; [exact Hv|]. split; [now exists (tracked w1), t1|].
  split; [now exists buf, t3, t4|].
  split.
  { rewrite Hresp. unfold successResponse, successText. cbn [content].
    rewrite Hkb, Hfix, Hw1. reflexivity. }
  split; [now rewrite Hresp|]. split; [now rewrite Hfix|].
  split; [exact Hwhole|]. split; [exact Hwd|].
  split; [exact Hlen|]. split; [exact Hfd|].
  split; [exact Hval|]. split; [exact Hnear|].
  split; [now rewrite <- Hkb|].
  split; [exact dec_Z_value | reflexivity].
Qed.

Lemma success_summary_witness :
  let env := stubEnv oneUrl pngBytes in
  let args :=
    Some {| Args.prompt := VStr (js "sunset over mountains");
            Args.model := VStr (js "flux-schnell");
            Args.output_path := VUndefined; Args.width := VUndefined;
            Args.height := VUndefined; Args.quality := VUndefined |} in
  let resp :=
    successResponse
      (js "Image generated successfully!" ++ nl ++ nl
       ++ js "Output: /srv/images/sunset_over_mountains_2024-03-07T09-05-59.png"
       ++ nl ++ js "Model: flux-schnell"
       ++ nl ++ js "Dimensions: 1024x768"
       ++ nl ++ js "File size: 195KB"
       ++ nl ++ js "Processing time: 1234ms"
       ++ nl ++ js "Cost: $0.003"
       ++ nl ++ js "Working Directory: /srv/images") in
  let w' := snd (@handleGenerateImage posix_host env args world0) in
  (forall model, (Qabs (calculateCost env model) < inject_Z (10 ^ 21))%Q)
  /\ @handleGenerateImage posix_host env args world0 = (Return resp, w')
  /\ exists v w1 result processResult,
       @validateRequest posix_host env args world0 = (Return v, w1)
       /\ Locals.model v = VStr (js "flux-schnell")
       /\ (exists t t', generateImage env (generationRequest v) t
                        = (Return result, t'))
       /\ (exists buf t t', processImage env buf (processOptions v) t
                            = (Return processResult, t')).
Proof.
  intros env args resp w'.
  assert (Hrun : @handleGenerateImage posix_host env args world0
                 = (Return resp, w')) by reflexivity.
  assert (Hcost : forall model,
             (Qabs (calculateCost env model) < inject_Z (10 ^ 21))%Q)
    by (intro model; reflexivity).
  split; [exact Hcost|]. split; [exact Hrun|].
  destruct (@success_summary posix_host env args world0 w' resp Hcost Hrun)
    as (v & w1 & result & pr & _ & _ & _ & Hv & Hg & Hp & _).
  exists v, w1, result, pr. split; [exact Hv|]. split; [|now split].
  vm_compute in Hv. now inversion Hv.
Defined.

(** The end-to-end scenario of the specification. *)
Example sunset_over_mountains :
  let env := stubEnv oneUrl pngBytes in
  let args :=
    Some {| Args.prompt := VStr (js "sunset over mountains");
            Args.model := VStr (js "flux-schnell");
            Args.output_path := VUndefined; Args.width := VUndefined;
            Args.height := VUndefined; Args.quality := VUndefined |} in
  fst (@callToolHandler posix_host env (js "generate_image") args world0)
  = Return (successResponse
      (js "Image generated successfully!" ++ nl ++ nl
       ++ js "Output: /srv/images/sunset_over_mountains_2024-03-07T09-05-59.png"
       ++ nl ++ js "Model: flux-schnell"
       ++ nl ++ js "Dimensions: 1024x768"
       ++ nl ++ js "File size: 195KB"
       ++ nl ++ js "Processing time: 1234ms"
       ++ nl ++ js "Cost: $0.003"
       ++ nl ++ js "Working Directory: /srv/images")).
Proof. reflexivity. Qed.

(* ================================================================== *)
(** ** C4 and C5: defaults, and what is not checked *)

(** C4: in a request that passes the validation, a model, width, height or
    quality that is absent takes the default: the configured default model,
    1024, 768 and the configured output quality.  These are the values sent
    to the remote client and to the processor. *)
Theorem absent_fields_default `{Host} (env : Env) (a : Args.t)
        (w w' : World) (v : Locals.t) :
  validateRequest env (Some a) w = (Return v, w') ->
  (Args.model a = VUndefined ->
   GenRequest.model (generationRequest v)
   = VStr (Config.defaultModel (getConfig env)))
  /\ (Args.width a = VUndefined ->
      GenRequest.width (generationRequest v) = VNum 1024
      /\ ProcessOptions.width (processOptions v) = VNum 1024)
  /\ (Args.height a = VUndefined ->
      GenRequest.height (generationRequest v) = VNum 768
      /\ ProcessOptions.height (processOptions v) = VNum 768)
  /\ (Args.quality a = VUndefined ->
      ProcessOptions.quality (processOptions v)
      = VNum (Config.outputQuality (getConfig env))).
Proof.
  intro Hv. apply validateRequest_Return in Hv.
  destruct Hv as (a' & s & path & Ha & _ & _ & _ & Hdef & _ & _).
  inversion Ha; subst a' v; clear Ha.
  unfold generationRequest, processOptions, defaulted; cbn.
  split; [intros ->; reflexivity|].
  split; [intros ->; now split|].
  split; [intros ->; now split|].
  intros ->; reflexivity.
Qed.

Lemma absent_fields_default_witness :
  let env := stubEnv oneUrl pngBytes in
  let a := promptOnly (VStr (js "sunset over mountains")) in
  let v := defaulted env a (js "sunset over mountains")
             (js "/srv/images/sunset_over_mountains_2024-03-07T09-05-59.png") in
  let w1 := logged (EvLog (js "info") (js "Starting image generation"))
              world0 in
  @validateRequest posix_host env (Some a) world0 = (Return v, w1)
  /\ Args.width a = VUndefined
  /\ Args.height a = VUndefined
  /\ GenRequest.width (generationRequest v) = VNum 1024
  /\ GenRequest.height (generationRequest v) = VNum 768.
Proof.
  intros env a v w1.
  assert (Hv : @validateRequest posix_host env (Some a) world0
               = (Return v, w1)) by reflexivity.
  split; [exact Hv|]. split; [reflexivity|]. split; [reflexivity|].
  destruct (@absent_fields_default posix_host env a world0 w1 v Hv)
    as (_ & Hw & Hh & _).
  split; [exact (proj1 (Hw eq_refl)) | exact (proj1 (Hh eq_refl))].
Defined.

(** Whether a request is accepted does not depend on its [quality]: the
    validation reads the argument only to default it. *)
Lemma validateRequest_ignores_quality `{Host} (env : Env) (a : Args.t)
      (q : JsVal) (w : World) :
  validateRequest env (Some (with_quality a q)) w
  = match validateRequest env (Some a) w with
    | (Return v, w') =>
        (Return {| Locals.prompt := Locals.prompt v;
                   Locals.resolvedOutputPath := Locals.resolvedOutputPath v;
                   Locals.model := Locals.model v;
                   Locals.width := Locals.width v;
                   Locals.height := Locals.height v;
                   Locals.quality :=
                     js_or q (VNum (Config.outputQuality (getConfig env))) |},
         w')
    | (Throw e, w') => (Throw e, w')
    end.
Proof.
  unfold validateRequest, with_quality. cbn [Args.prompt Args.model
    Args.output_path Args.width Args.height Args.quality].
  destruct (_ || _); [reflexivity|].
  unfold bind at 1 3.
  destruct (resolveOutputPath _ _ _ w) as [[path|e] w1]; [|reflexivity].
  destruct (negb _); reflexivity.
Qed.

(** C5 at a failing input: a call with [quality] 500 is not rejected.  The
    request is submitted to the remote client, the asset is downloaded, and
    the processor is called with quality 500. *)
Lemma quality_500_is_not_rejected :
  let a := with_quality (promptOnly (VStr (js "sunset over mountains")))
                        (VNum 500) in
  let run := @handleGenerateImage posix_host (stubEnv oneUrl pngBytes)
               (Some a) world0 in
  (exists resp, fst run = Return resp)
  /\ exists v,
       ProcessOptions.quality (processOptions v) = VNum 500
       /\ trace (snd run)
          = [EvLog (js "info") (js "Starting image generation");
             EvGenerateImage (generationRequest v);
             EvDownloadImage (js "https://replicate.delivery/out.webp");
             EvMkdir (js "/srv/images");
             EvProcessImage (processOptions v);
             EvLog (js "info") (js "Image generation completed")].
Proof.
  intros a run. split; [eexists; reflexivity|].
  exists (defaulted (stubEnv oneUrl pngBytes) a (js "sunset over mountains")
            (js "/srv/images/sunset_over_mountains_2024-03-07T09-05-59.png")).
  split; reflexivity.
Qed.

(* ================================================================== *)
(** * Further properties of the source *)

(** ** The generated filename *)

Lemma kept_is_not_underscore (c : N) :
  kept_by_class c = true -> (c =? 95) = false.
Proof.
  intro H. apply N.eqb_neq. intros ->. discriminate H.
Qed.

(** In a string without underscores, collapsing never puts two underscores
    side by side, and the result starts with one only where the string
    starts with whitespace. *)
Lemma collapse_whitespace_single (l : jsstring) :
  forallb kept_by_class l = true ->
  adjacent_underscores (collapse_whitespace l) = false
  /\ (match collapse_whitespace l with c :: _ => c =? 95 | [] => false end
      = true -> first_is_whitespace l = true).
Proof.
  induction l as [|c t IH]; [intros _; split; [reflexivity|discriminate]|].
  cbn [forallb]. intro H. apply andb_true_iff in H. destruct H as [Hc Ht].
  destruct (IH Ht) as [IHadj IHhead]. clear IH.
  cbn [collapse_whitespace first_is_whitespace].
  destruct (is_whitespace c) eqn:Hw.
  - split; [|reflexivity].
    destruct t as [|c' t']; [reflexivity|].
    destruct (is_whitespace c') eqn:Hw'; [exact IHadj|].
    cbn [adjacent_underscores]. rewrite IHadj, orb_false_r.
    cbn [first_is_whitespace] in IHhead. rewrite Hw' in IHhead.
    destruct (collapse_whitespace (c' :: t')) as [|x r]; [reflexivity|].
    destruct (x =? 95); [|reflexivity].
    now specialize (IHhead eq_refl).
  - cbn [adjacent_underscores]. rewrite IHadj, orb_false_r.
    rewrite (kept_is_not_underscore c Hc). split; [reflexivity|discriminate].
Qed.

Lemma adjacent_underscores_firstn (n : nat) (l : jsstring) :
  adjacent_underscores l = false -> adjacent_underscores (firstn n l) = false.
Proof.
  revert l. induction n as [|n IH]; intros [|c t]; try reflexivity.
  cbn [firstn adjacent_underscores]. intro H.
  apply orb_false_iff in H. destruct H as [Hhere Hrest].
  rewrite (IH t Hrest), orb_false_r.
  destruct (c =? 95); [|reflexivity]. cbn [andb] in *.
  destruct n; [reflexivity|]. destruct t; [reflexivity|]. exact Hhere.
Qed.

(** The part of the filename that comes from the prompt is at most 50 code
    units of lower-case letters, digits and underscores, and no two
    underscores are adjacent: whatever the prompt holds (path separators,
    dots, control characters, any Unicode), none of it reaches the name. *)
Theorem cleanPrompt_safe `{Host} (prompt : jsstring) :
  forallb (fun c => is_lower c || is_digit c || (c =? 95)) (cleanPrompt prompt)
  = true
  /\ (List.length (cleanPrompt prompt) <= 50)%nat
  /\ adjacent_underscores (cleanPrompt prompt) = false.
Proof.
  split; [apply cleanPrompt_alphabet|].
  rewrite cleanPrompt_spec. unfold spec_cleanPrompt.
  split; [apply firstn_le_length|].
  apply adjacent_underscores_firstn, collapse_whitespace_single.
  apply forallb_forall. intros c Hin. now apply filter_In in Hin.
Qed.

Lemma field2_stem (n : N) : forallb is_stem_char (field2 n) = true.
Proof.
  unfold field2, is_stem_char. cbn [forallb].
  now rewrite !digit_at_is_digit, !orb_true_r.
Qed.

Lemma field4_stem (n : N) : forallb is_stem_char (field4 n) = true.
Proof.
  unfold field4, field3, field2, is_stem_char. cbn [forallb].
  now rewrite !digit_at_is_digit, !orb_true_r.
Qed.

Lemma spec_timestamp_stem (d : UTCDate) :
  forallb is_stem_char (spec_timestamp d) = true.
Proof.
  unfold spec_timestamp.
  rewrite !forallb_app, !field2_stem, field4_stem. reflexivity.
Qed.

Lemma generateFilename_stem `{Host} (prompt format : jsstring) (w : World) :
  (0 <= year (now w) <= 9999)%Z ->
  exists stem,
    generateFilename prompt format w = (Return (stem ++ js "." ++ format), w)
    /\ forallb is_stem_char stem = true
    /\ (20 <= List.length stem <= 70)%nat.
Proof.
  intro Hyear. exists (cleanPrompt prompt ++ js "_" ++ timestamp (now w)).
  pose proof (cleanPrompt_alphabet prompt) as Halpha.
  assert (Hlen : (List.length (cleanPrompt prompt) <= 50)%nat)
    by (rewrite cleanPrompt_spec; apply firstn_le_length).
  rewrite (timestamp_shape _ Hyear).
  split; [|split].
  - unfold generateFilename, bind, newDate, ret.
    rewrite (timestamp_shape _ Hyear). now rewrite <- !app_assoc.
  - rewrite !forallb_app, spec_timestamp_stem.
    change (forallb is_stem_char (js "_")) with true. rewrite !andb_true_r.
    apply forallb_forall. intros c Hin.
    rewrite forallb_forall in Halpha. specialize (Halpha c Hin).
    unfold is_stem_char.
    apply orb_true_iff in Halpha. destruct Halpha as [Ha|Ha].
    + apply orb_true_iff in Ha. destruct Ha as [Ha|Ha]; rewrite Ha;
        now rewrite ?orb_true_r.
    + rewrite Ha. now rewrite ?orb_true_r.
  - rewrite !length_app, spec_timestamp_length. cbn [List.length js map
      list_ascii_of_string]. lia.
Qed.

(** With a four-digit year, the generated name is a stem of 20 to 70
    characters out of [a-z0-9_-T], then a dot and the format: the stem holds
    no path separator, no dot and no whitespace. *)
Theorem generated_name_shape `{Host} (prompt format : jsstring) (w : World) :
  (0 <= year (now w) <= 9999)%Z ->
  exists stem,
    generateFilename prompt format w = (Return (stem ++ js "." ++ format), w)
    /\ forallb is_stem_char stem = true
    /\ (20 <= List.length stem <= 70)%nat.
Proof.
  intro Hyear. destruct (generateFilename_stem prompt format w Hyear)
    as (stem & Hgen & Hchars & Hlen).
  exists stem. split; [exact Hgen|]. split; [exact Hchars | exact Hlen].
Qed.

Lemma generated_name_shape_witness :
  (0 <= year (now world0) <= 9999)%Z
  /\ exists stem,
       @generateFilename posix_host (js "A Red Fox, Running!") (js "png")
         world0 = (Return (stem ++ js "." ++ js "png"), world0)
       /\ forallb is_stem_char stem = true
       /\ (20 <= List.length stem <= 70)%nat.
Proof.
  assert (Hyear : (0 <= year (now world0) <= 9999)%Z)
    by (vm_compute; split; discriminate).
  split; [exact Hyear|].
  exact (@generated_name_shape posix_host (js "A Red Fox, Running!")
           (js "png") world0 Hyear).
Defined.

Lemma digit_at_untouched (n i : N) : colon_or_period (digit_at n i) = false.
Proof. apply digit_not_colon_or_period, digit_at_is_digit. Qed.

Lemma iso_year_untouched (y : Z) :
  replace_each colon_or_period (js "-") (iso_year y) = iso_year y.
Proof.
  unfold iso_year. destruct (_ && _)%bool; [apply field4_untouched|].
  apply replace_each_untouched.
  unfold field6, field4, field3, field2.
  destruct (y <? 0)%Z;
    [change (js "-") with [45] | change (js "+") with [43]];
    cbn [app forallb]; now rewrite !digit_at_untouched.
Qed.

(** The timestamp is cut out of the date and the time of day down to the
    second; the milliseconds lie behind the cut. *)
Lemma timestamp_seconds (d : UTCDate) :
  timestamp d
  = firstn 19
      (iso_year (year d) ++ js "-" ++ field2 (month d) ++ js "-"
       ++ field2 (day d) ++ js "T" ++ field2 (hours d) ++ js "-"
       ++ field2 (minutes d) ++ js "-" ++ field2 (seconds d)).
Proof.
  unfold timestamp, toISOString, substring0.
  rewrite !replace_each_app, !field2_untouched, iso_year_untouched.
  unfold iso_year. destruct (_ && _)%bool; [reflexivity|].
  destruct (year d <? 0)%Z; reflexivity.
Qed.

(** Two calls within the same second whose prompts clean to the same text
    are given the same filename: the milliseconds of the clock never reach
    the name, and the later call will write over the file of the earlier. *)
Theorem same_second_same_filename `{Host} (prompt1 prompt2 format : jsstring)
        (w1 w2 : World) :
  cleanPrompt prompt1 = cleanPrompt prompt2 ->
  same_second (now w1) (now w2) ->
  fst (generateFilename prompt1 format w1)
  = fst (generateFilename prompt2 format w2).
Proof.
  intros Hclean (Hy & Hmo & Hd & Hh & Hmi & Hs).
  unfold generateFilename, bind, newDate, ret. cbn [fst].
  rewrite Hclean, !timestamp_seconds, Hy, Hmo, Hd, Hh, Hmi, Hs.
  reflexivity.
Qed.

Lemma same_second_same_filename_witness :
  let later := {| workingDirectory := js "/srv/images";
                  now := {| year := 2024; month := 3; day := 7; hours := 9;
                            minutes := 5; seconds := 59; millis := 987 |};
                  tracked := []; trace := [] |} in
  @cleanPrompt posix_host (js "A Red Fox!")
  = @cleanPrompt posix_host (js "a red  fox")
  /\ same_second (now world0) (now later)
  /\ fst (@generateFilename posix_host (js "A Red Fox!") (js "png") world0)
     = fst (@generateFilename posix_host (js "a red  fox") (js "png") later).
Proof.
  intro later.
  assert (Hc : @cleanPrompt posix_host (js "A Red Fox!")
               = @cleanPrompt posix_host (js "a red  fox")) by reflexivity.
  assert (Hs : same_second (now world0) (now later))
    by (repeat split; reflexivity).
  split; [exact Hc|]. split; [exact Hs|].
  exact (@same_second_same_filename posix_host _ _ (js "png") world0 later
           Hc Hs).
Defined.

Lemma symbols_are_stripped (s : jsstring) :
  forallb is_ascii_symbol s = true ->
  replace_each not_alnum_or_space [] (map ascii_lower s) = [].
Proof.
  induction s as [|c t IH]; [reflexivity|].
  cbn [forallb map replace_each]. intro H.
  apply andb_true_iff in H. destruct H as [Hc Ht].
  unfold is_ascii_symbol in Hc. apply andb_true_iff in Hc.
  destruct Hc as [_ Hc]. apply negb_true_iff in Hc.
  apply orb_false_iff in Hc. destruct Hc as [Hc Hws].
  apply orb_false_iff in Hc. destruct Hc as [Hc Hdig].
  apply orb_false_iff in Hc. destruct Hc as [Hup Hlow].
  unfold ascii_lower. unfold is_upper in Hup. rewrite Hup.
  unfold not_alnum_or_space. rewrite Hlow, Hdig, Hws. cbn [orb negb app].
  exact (IH Ht).
Qed.

(** A prompt made of ASCII punctuation and symbols only (it passes the
    validation, being neither empty nor blank) leaves nothing for the name:
    the file is called [_<timestamp>.<format>]. *)
Theorem symbol_prompt_filename `{Host} (prompt format : jsstring) (w : World) :
  forallb is_ascii_symbol prompt = true ->
  cleanPrompt prompt = []
  /\ generateFilename prompt format w
     = (Return (js "_" ++ timestamp (now w) ++ js "." ++ format), w).
Proof.
  intro Hsym.
  assert (Hclean : cleanPrompt prompt = []).
  { unfold cleanPrompt, toLowerCase.
    assert (Hascii : forallb is_ascii prompt = true).
    { apply forallb_forall. intros c Hin.
      rewrite forallb_forall in Hsym. specialize (Hsym c Hin).
      unfold is_ascii_symbol in Hsym. now apply andb_true_iff in Hsym. }
    rewrite Hascii, (symbols_are_stripped prompt Hsym). reflexivity. }
  split; [exact Hclean|].
  unfold generateFilename, bind, newDate, ret. now rewrite Hclean.
Qed.

Lemma symbol_prompt_filename_witness :
  forallb is_ascii_symbol (js "?!.../..") = true
  /\ @generateFilename posix_host (js "?!.../..") (js "png") world0
     = (Return (js "_2024-03-07T09-05-59.png"), world0).
Proof.
  split; [reflexivity|].
  exact (proj2 (@symbol_prompt_filename posix_host (js "?!.../..") (js "png")
                  world0 eq_refl)).
Defined.

(* ================================================================== *)
(** ** The prompt that is submitted *)

Lemma trimStart_split (s : jsstring) :
  exists pre,
    s = pre ++ trimStart s
    /\ forallb is_whitespace pre = true
    /\ first_is_whitespace (trimStart s) = false.
Proof.
  induction s as [|c t (pre & Heq & Hpre & Hhead)].
  - exists []. repeat split.
  - cbn [trimStart]. destruct (is_whitespace c) eqn:Hc.
    + exists (c :: pre). cbn [app forallb]. rewrite Hc, Hpre.
      repeat split; [now rewrite <- Heq | exact Hhead].
    + exists []. cbn [first_is_whitespace]. repeat split. exact Hc.
Qed.

Lemma first_of_prefix (a b : jsstring) :
  a <> [] -> first_is_whitespace (a ++ b) = first_is_whitespace a.
Proof. destruct a; [contradiction|reflexivity]. Qed.

(** [trim] takes a whitespace prefix and a whitespace suffix away and
    nothing else; what is left begins and ends with a character that is not
    whitespace. *)
Lemma trim_split (s : jsstring) :
  exists pre suf,
    s = pre ++ trim s ++ suf
    /\ forallb is_whitespace pre = true
    /\ forallb is_whitespace suf = true
    /\ first_is_whitespace (trim s) = false
    /\ first_is_whitespace (rev (trim s)) = false.
Proof.
  destruct (trimStart_split s) as (pre & Hs & Hpre & Hfirst).
  destruct (trimStart_split (rev (trimStart s))) as (fus & Hr & Hfus & Hlast).
  exists pre, (rev fus). unfold trim, trimEnd.
  assert (Hsplit : trimStart s = rev (trimStart (rev (trimStart s))) ++ rev fus).
  { rewrite <- rev_app_distr, <- Hr. now rewrite rev_involutive. }
  split; [now rewrite <- Hsplit|]. split; [exact Hpre|].
  split.
  { rewrite forallb_forall in *. intros c Hin. apply Hfus.
    now apply in_rev. }
  split; [|now rewrite rev_involutive].
  destruct (rev (trimStart (rev (trimStart s)))) as [|c r] eqn:He;
    [reflexivity|].
  rewrite Hsplit in Hfirst. rewrite first_of_prefix in Hfirst by discriminate.
  exact Hfirst.
Qed.

Lemma trim_not_blank (s : jsstring) :
  forallb is_whitespace s = false -> trim s <> [].
Proof.
  intros Hs Ht.
  destruct (trim_split s) as (pre & suf & Heq & Hpre & Hsuf & _).
  rewrite Ht in Heq. cbn [app] in Heq.
  rewrite Heq, forallb_app, Hpre, Hsuf in Hs. discriminate.
Qed.

(** The condition of line 163 fails for a prompt that is a string and not
    blank. *)
Lemma prompt_condition_false (p : JsVal) :
  prompt_missing_or_blank p = false ->
  exists s, p = VStr s /\ trim s <> []
    /\ negb (truthy p) || negb (typeof_string p)
       || (List.length (trim (as_string p)) =? 0)%nat = false.
Proof.
  destruct p as [| |b|n|s|o]; cbn [prompt_missing_or_blank]; try discriminate.
  intro Hs. exists s. pose proof (trim_not_blank s Hs) as Ht.
  split; [reflexivity|]. split; [exact Ht|].
  cbn [truthy typeof_string as_string negb].
  destruct s as [|c s']; [discriminate|]. cbn [negb orb].
  destruct (trim (c :: s')); [contradiction|reflexivity].
Qed.

(** The prompt sent to the remote service is the [prompt] argument without
    its leading and trailing whitespace, and nothing else is removed: it is
    not empty and neither begins nor ends with whitespace. *)
Theorem submitted_prompt_is_trimmed `{Host} (env : Env) (a : Args.t)
        (w w' : World) (v : Locals.t) :
  validateRequest env (Some a) w = (Return v, w') ->
  exists s pre suf,
    Args.prompt a = VStr s
    /\ s = pre ++ GenRequest.prompt (generationRequest v) ++ suf
    /\ forallb is_whitespace pre = true
    /\ forallb is_whitespace suf = true
    /\ GenRequest.prompt (generationRequest v) <> []
    /\ first_is_whitespace (GenRequest.prompt (generationRequest v)) = false
    /\ first_is_whitespace (rev (GenRequest.prompt (generationRequest v)))
       = false.
Proof.
  intro Hv. apply validateRequest_Return in Hv.
  destruct Hv as (a' & s & path & Ha & Hp & Hne & _ & Hdef & _ & _).
  inversion Ha; subst a' v; clear Ha.
  destruct (trim_split s) as (pre & suf & Heq & Hpre & Hsuf & Hfirst & Hlast).
  exists s, pre, suf. cbn [generationRequest defaulted GenRequest.prompt
    Locals.prompt].
  repeat split; assumption.
Qed.

Lemma submitted_prompt_is_trimmed_witness :
  let env := stubEnv oneUrl pngBytes in
  let a := promptOnly (VStr (js "  sunset over mountains ")) in
  let v := defaulted env a (js "sunset over mountains")
             (js "/srv/images/sunset_over_mountains_2024-03-07T09-05-59.png") in
  let w1 := logged (EvLog (js "info") (js "Starting image generation"))
              world0 in
  @validateRequest posix_host env (Some a) world0 = (Return v, w1)
  /\ GenRequest.prompt (generationRequest v) = js "sunset over mountains"
  /\ exists s pre suf,
       Args.prompt a = VStr s
       /\ s = pre ++ GenRequest.prompt (generationRequest v) ++ suf
       /\ forallb is_whitespace pre = true
       /\ forallb is_whitespace suf = true.
Proof.
  intros env a v w1.
  assert (Hv : @validateRequest posix_host env (Some a) world0
               = (Return v, w1)) by reflexivity.
  split; [exact Hv|]. split; [reflexivity|].
  destruct (@submitted_prompt_is_trimmed posix_host env a world0 w1 v Hv)
    as (s & pre & suf & Hs & Heq & Hpre & Hsuf & _).
  now exists s, pre, suf.
Defined.

(* ================================================================== *)
(** ** The order of the checks and their messages *)

Lemma validateRequest_after_prompt `{Host} (env : Env) (a : Args.t) (w : World) :
  prompt_missing_or_blank (Args.prompt a) = false ->
  exists s,
    Args.prompt a = VStr s /\ trim s <> []
    /\ validateRequest env (Some a) w
       = bind (resolveOutputPath (Args.output_path a) (trim s)
                 (Config.outputFormat (getConfig env)))
           (fun resolvedOutputPath =>
              if negb (isModelSupported env (Locals.model
                         (defaulted env a (trim s) resolvedOutputPath)))
              then throw (validationError
                     (js "Unsupported model: "
                      ++ ToString (Locals.model
                           (defaulted env a (trim s) resolvedOutputPath))
                      ++ js ". Supported models: "
                      ++ join_with (js ", ") (getAvailableModels env)))
              else bind (info (js "Starting image generation"))
                     (fun _ => ret (defaulted env a (trim s)
                                      resolvedOutputPath))) w.
Proof.
  intro Hp. destruct (prompt_condition_false _ Hp) as (s & Hs & Hne & Hcond).
  exists s. split; [exact Hs|]. split; [exact Hne|].
  unfold validateRequest. rewrite Hcond. rewrite Hs. reflexivity.
Qed.

(** The path is checked before the model: with a prompt that is in order, a
    relative [output_path] is refused with the message about absolute paths
    whatever the model is, supported or not, and nothing has been done. *)
Theorem relative_path_refused_before_model `{Host} (env : Env) (a : Args.t)
        (w : World) (p : jsstring) :
  prompt_missing_or_blank (Args.prompt a) = false ->
  Args.output_path a = VStr p ->
  p <> [] ->
  isAbsolute p = false ->
  handleGenerateImage env (Some a) w
  = (Throw (validationError (js
      "output_path must be an absolute path. Relative paths are not supported because the client and server may run in different environments.")),
     w).
Proof.
  intros Hp Ha Hne Hrel.
  destruct (validateRequest_after_prompt env a w Hp) as (s & _ & _ & Hv).
  unfold handleGenerateImage, bind at 1. rewrite Hv.
  unfold bind at 1, resolveOutputPath. rewrite Ha.
  destruct p as [|c p']; [contradiction|].
  cbn [truthy]. rewrite Hrel. reflexivity.
Qed.

Lemma relative_path_refused_before_model_witness :
  let a := {| Args.prompt := VStr (js "sunset");
              Args.model := VStr (js "dall-e");
              Args.output_path := VStr (js "./out.png");
              Args.width := VUndefined; Args.height := VUndefined;
              Args.quality := VUndefined |} in
  prompt_missing_or_blank (Args.prompt a) = false
  /\ @isAbsolute posix_host (js "./out.png") = false
  /\ fluxModelSupported (Args.model a) = false
  /\ @handleGenerateImage posix_host (stubEnv oneUrl pngBytes) (Some a)
       worldTracking
     = (Throw (validationError (js
          "output_path must be an absolute path. Relative paths are not supported because the client and server may run in different environments.")),
        worldTracking).
Proof.
  intro a. split; [reflexivity|]. split; [reflexivity|].
  split; [reflexivity|].
  apply (@relative_path_refused_before_model posix_host
           (stubEnv oneUrl pngBytes) a worldTracking (js "./out.png"));
    [reflexivity | reflexivity | discriminate | reflexivity].
Defined.




(** An [output_path] that is truthy but not a string (a number, [true], an
    object) makes [isAbsolute] throw a [TypeError]; the caller is told
    ["Error: Unknown error occurred"], not that the path was wrong, and
    nothing but the error log line has happened. *)
Theorem non_string_output_path `{Host} (env : Env) (a : Args.t) (w : World) :
  prompt_missing_or_blank (Args.prompt a) = false ->
  truthy (Args.output_path a) = true ->
  typeof_string (Args.output_path a) = false ->
  callToolHandler env (js "generate_image") (Some a) w
  = (Return (errorPayload (processingError (js "Unknown error occurred"))),
     logged (EvLog (js "error") (js "Image generation failed")) w).
Proof.
  intros Hp Ht Hty.
  destruct (validateRequest_after_prompt env a w Hp) as (s & _ & _ & Hv).
  unfold callToolHandler. rewrite str_eqb_refl.
  unfold try_catch, handleGenerateImage, bind at 1. rewrite Hv.
  unfold bind at 1, resolveOutputPath. rewrite Ht.
  destruct (Args.output_path a) as [| |b|n|p|o]; try discriminate;
    reflexivity.
Qed.

Lemma non_string_output_path_witness :
  let a := {| Args.prompt := VStr (js "sunset"); Args.model := VUndefined;
              Args.output_path := VNum 42;
              Args.width := VUndefined; Args.height := VUndefined;
              Args.quality := VUndefined |} in
  prompt_missing_or_blank (Args.prompt a) = false
  /\ truthy (Args.output_path a) = true
  /\ typeof_string (Args.output_path a) = false
  /\ text_of_first
       match fst (@callToolHandler posix_host (stubEnv oneUrl pngBytes)
                    (js "generate_image") (Some a) world0) with
       | Return resp => resp
       | Throw _ => successResponse []
       end
     = js "Error: Unknown error occurred".
Proof.
  intro a. split; [reflexivity|]. split; [reflexivity|].
  split; [reflexivity|].
  rewrite (@non_string_output_path posix_host (stubEnv oneUrl pngBytes) a
             world0 eq_refl eq_refl eq_refl).
  reflexivity.
Defined.

(* ================================================================== *)
(** ** What reaches the collaborators *)

(** The numeric arguments are not coerced, rounded or clamped: a truthy
    width, height or quality reaches the remote client and the processor as
    it was supplied, whatever its type or range, and a falsy one (0 as much
    as an absent one) is replaced by 1024, 768 and the configured quality:
    a width, a height or a quality of 0 cannot be requested. *)
Theorem arguments_pass_unchanged `{Host} (env : Env) (a : Args.t)
        (w w' : World) (v : Locals.t) :
  validateRequest env (Some a) w = (Return v, w') ->
  GenRequest.width (generationRequest v)
  = (if truthy (Args.width a) then Args.width a else VNum 1024)
  /\ GenRequest.height (generationRequest v)
     = (if truthy (Args.height a) then Args.height a else VNum 768)
  /\ ProcessOptions.width (processOptions v)
     = GenRequest.width (generationRequest v)
  /\ ProcessOptions.height (processOptions v)
     = GenRequest.height (generationRequest v)
  /\ ProcessOptions.quality (processOptions v)
     = (if truthy (Args.quality a) then Args.quality a
        else VNum (Config.outputQuality (getConfig env))).
Proof.
  intro Hv. apply validateRequest_Return in Hv.
  destruct Hv as (a' & s & path & Ha & _ & _ & _ & Hdef & _ & _).
  inversion Ha; subst a' v; clear Ha.
  repeat split.
Qed.

Lemma arguments_pass_unchanged_witness :
  let env := stubEnv oneUrl pngBytes in
  let a := {| Args.prompt := VStr (js "sunset"); Args.model := VUndefined;
              Args.output_path := VUndefined;
              Args.width := VNum 0; Args.height := VNum (-5);
              Args.quality := VStr (js "high") |} in
  let v := defaulted env a (js "sunset")
             (js "/srv/images/sunset_2024-03-07T09-05-59.png") in
  let w1 := logged (EvLog (js "info") (js "Starting image generation"))
              world0 in
  @validateRequest posix_host env (Some a) world0 = (Return v, w1)
  /\ GenRequest.width (generationRequest v) = VNum 1024
  /\ GenRequest.height (generationRequest v) = VNum (-5)
  /\ ProcessOptions.quality (processOptions v) = VStr (js "high").
Proof.
  intros env a v w1.
  assert (Hv : @validateRequest posix_host env (Some a) world0
               = (Return v, w1)) by reflexivity.
  split; [exact Hv|].
  destruct (@arguments_pass_unchanged posix_host env a world0 w1 v Hv)
    as (Hw & Hh & _ & _ & Hq).
  split; [exact Hw|]. split; [exact Hh | exact Hq].
Defined.

(* ================================================================== *)
(** ** The stages of the pipeline *)

(** The collaborators are called in the order remote submission, download,
    directory, processing, each with what the one before left, and what
    they answer decides how far the run goes: the submission is always
    made; the download starts only when the submission answered with a
    first URL that is not empty; [mkdir] starts only when the download
    answered; the processor is called only when [mkdir] answered.  A stage
    that throws ends the run with its error and the clean-up, and no later
    stage is started; when all four answer, the run returns, ends with the
    completion log line, and leaves tracked what the processor left. *)
Theorem stages_run_in_order `{Host} (env : Env) (args : option Args.t)
        (w w1 : World) (v : Locals.t) :
  validateRequest env args w = (Return v, w1) ->
  let run := handleGenerateImage env args w in
  let req := generationRequest v in
  let dir := dirname (Locals.resolvedOutputPath v) in
  let opts := processOptions v in
  let ends (events : list Event) (last : Event) :=
    trace (snd run) = trace w1 ++ events ++ [last] in
  match generateImage env req (tracked w1) with
  | (Throw e, _) =>
      fst run = Throw e /\ ends [EvGenerateImage req] EvCleanupAll
  | (Return result, t1) =>
      match GenResult.imageUrls result with
      | [] =>
          (exists e, fst run = Throw e)
          /\ ends [EvGenerateImage req] EvCleanupAll
      | url :: _ =>
          if truthy (VStr url) then
            match downloadImage env url t1 with
            | (Throw e, _) =>
                fst run = Throw e
                /\ ends [EvGenerateImage req; EvDownloadImage url] EvCleanupAll
            | (Return buf, t2) =>
                match mkdir env dir t2 with
                | (Throw e, _) =>
                    fst run = Throw e
                    /\ ends [EvGenerateImage req; EvDownloadImage url;
                             EvMkdir dir] EvCleanupAll
                | (Return _, t3) =>
                    match processImage env buf opts t3 with
                    | (Throw e, _) =>
                        fst run = Throw e
                        /\ ends [EvGenerateImage req; EvDownloadImage url;
                                 EvMkdir dir; EvProcessImage opts]
                                EvCleanupAll
                    | (Return processResult, t4) =>
                        (exists resp, fst run = Return resp)
                        /\ ends [EvGenerateImage req; EvDownloadImage url;
                                 EvMkdir dir; EvProcessImage opts]
                                (EvLog (js "info")
                                   (js "Image generation completed"))
                        /\ tracked (snd run) = t4
                    end
                end
            end
          else
            (exists e, fst run = Throw e)
            /\ ends [EvGenerateImage req] EvCleanupAll
      end
  end.
Proof.
  intro Hv. cbv zeta.
  rewrite (handleGenerateImage_validated env args w w1 v Hv).
  unfold try_catch, runPipeline, bind, call, cleanupAll, throw, info, emit,
    ret, this_workingDirectory.
  destruct (generateImage env _ _) as [[result|e] t1]; pipeline_step.
  2:{ split; [reflexivity | now rewrite <- ?app_assoc]. }
  destruct (GenResult.imageUrls result) as [|url rest]; pipeline_step.
  1:{ split; [eexists; reflexivity | now rewrite <- ?app_assoc]. }
  destruct url as [|c url']; pipeline_step.
  1:{ split; [eexists; reflexivity | now rewrite <- ?app_assoc]. }
  destruct (downloadImage env _ _) as [[buf|e] t2]; pipeline_step.
  2:{ split; [reflexivity | now rewrite <- ?app_assoc]. }
  destruct (mkdir env _ _) as [[[]|e] t3]; pipeline_step.
  2:{ split; [reflexivity | now rewrite <- ?app_assoc]. }
  destruct (processImage env _ _ _) as [[pr|e] t4]; pipeline_step.
  2:{ split; [reflexivity | now rewrite <- ?app_assoc]. }
  split; [eexists; reflexivity|]. split; [|reflexivity].
  now rewrite <- ?app_assoc.
Qed.

Lemma stages_run_in_order_witness :
  let env := stubEnv oneUrl downloadFails in
  let args := Some (promptOnly (VStr (js "sunset over mountains"))) in
  let v := defaulted env (promptOnly (VStr (js "sunset over mountains")))
             (js "sunset over mountains")
             (js "/srv/images/sunset_over_mountains_2024-03-07T09-05-59.png") in
  let w1 := logged (EvLog (js "info") (js "Starting image generation"))
              world0 in
  @validateRequest posix_host env args world0 = (Return v, w1)
  /\ fst (@handleGenerateImage posix_host env args world0)
     = Throw (processingError (js "Failed to download image"))
  /\ trace (snd (@handleGenerateImage posix_host env args world0))
     = trace w1
       ++ [EvGenerateImage (generationRequest v);
           EvDownloadImage (js "https://replicate.delivery/out.webp")]
       ++ [EvCleanupAll].
Proof.
  intros env args v w1.
  assert (Hv : @validateRequest posix_host env args world0 = (Return v, w1))
    by reflexivity.
  split; [exact Hv|].
  exact (@stages_run_in_order posix_host env args world0 w1 v Hv).
Defined.

(** When the first URL the remote client returns is the empty string, the
    call fails with ["Error: No valid image URL returned"] although the list
    is not empty: no other URL of the list is tried, nothing is downloaded
    or written, and the clean-up has run. *)
Theorem empty_first_url_is_rejected `{Host} (env : Env)
        (args : option Args.t) (w w1 : World) (v : Locals.t)
        (result : GenResult.t) (rest t : list jsstring) :
  validateRequest env args w = (Return v, w1) ->
  generateImage env (generationRequest v) (tracked w1) = (Return result, t) ->
  GenResult.imageUrls result = [] :: rest ->
  exists w',
    callToolHandler env (js "generate_image") args w
    = (Return (errorPayload
                 (processingError (js "No valid image URL returned"))), w')
    /\ trace w'
       = trace w1
         ++ [EvGenerateImage (generationRequest v);
             EvCleanupAll;
             EvLog (js "error") (js "Image generation failed")]
    /\ tracked w' = [].
Proof.
  intros Hv Hg Hurls.
  unfold callToolHandler. rewrite str_eqb_refl.
  unfold try_catch at 1, handleGenerateImage, bind at 1. rewrite Hv.
  unfold try_catch, runPipeline, bind at 1, call. rewrite Hg, Hurls.
  cbn [List.length Nat.eqb nth truthy negb].
  unfold throw, bind, cleanupAll, error, emit, ret.
  cbn [instanceof_McpError processingError].
  eexists. split; [reflexivity|]. split; [|reflexivity].
  cbn [trace]. now rewrite <- !app_assoc.
Qed.

Lemma empty_first_url_is_rejected_witness :
  let urls := [[]; js "https://replicate.delivery/second.webp"] in
  let env := stubEnv urls pngBytes in
  let args := Some (promptOnly (VStr (js "sunset over mountains"))) in
  let v := defaulted env (promptOnly (VStr (js "sunset over mountains")))
             (js "sunset over mountains")
             (js "/srv/images/sunset_over_mountains_2024-03-07T09-05-59.png") in
  let w1 := logged (EvLog (js "info") (js "Starting image generation"))
              world0 in
  let result := {| GenResult.imageUrls := urls;
                   GenResult.processingTime := 1234 |} in
  @validateRequest posix_host env args world0 = (Return v, w1)
  /\ generateImage env (generationRequest v) (tracked w1)
     = (Return result, js "/tmp/flux-download.part" :: tracked w1)
  /\ GenResult.imageUrls result
     = [] :: [js "https://replicate.delivery/second.webp"]
  /\ fst (@callToolHandler posix_host env (js "generate_image") args world0)
     = Return (errorPayload
                 (processingError (js "No valid image URL returned"))).
Proof.
  intros urls env args v w1 result.
  assert (Hv : @validateRequest posix_host env args world0 = (Return v, w1))
    by reflexivity.
  split; [exact Hv|]. split; [reflexivity|]. split; [reflexivity|].
  destruct (@empty_first_url_is_rejected posix_host env args world0 w1 v
              result [js "https://replicate.delivery/second.webp"]
              (js "/tmp/flux-download.part" :: tracked w1)
              Hv eq_refl eq_refl) as (w' & Hrun & _).
  now rewrite Hrun.
Defined.

Lemma runPipeline_success_tracked `{Host} (env : Env) (v : Locals.t)
      (w w' : World) (resp : Response) :
  runPipeline env v w = (Return resp, w') ->
  exists buf t3 processResult,
    processImage env buf (processOptions v) t3
    = (Return processResult, tracked w').
Proof.
  unfold runPipeline, bind, call, throw, info, emit, ret,
    this_workingDirectory.
  destruct (generateImage env _ _) as [[result|e] t1]; [|discriminate].
  destruct (List.length (GenResult.imageUrls result) =? 0)%nat; [discriminate|].
  destruct (negb _); [discriminate|]. cbn [tracked].
  destruct (downloadImage env _ _) as [[buf|e] t2]; [|discriminate].
  cbn [tracked].
  destruct (mkdir env _ _) as [[[]|e] t3]; [|discriminate].
  cbn [tracked].
  destruct (processImage env _ _ _) as [[pr|e] t4] eqn:Hpr; [|discriminate].
  intro Heq. inversion Heq; subst; clear Heq. cbn [tracked].
  now exists buf, t3, pr.
Qed.

(** A call that succeeds never runs [cleanupAll]: the set of tracked paths
    after the call is the one the image processor left, so a transient file
    that a collaborator tracked and did not untrack stays tracked (and on
    disk) until a later call fails or the server shuts down. *)
Theorem success_skips_cleanup `{Host} (env : Env) (args : option Args.t)
        (w w' : World) (resp : Response) :
  handleGenerateImage env args w = (Return resp, w') ->
  count_cleanup (trace w') = count_cleanup (trace w)
  /\ exists v buf t3 processResult,
       processImage env buf (processOptions v) t3
       = (Return processResult, tracked w').
Proof.
  intro Hh. apply handleGenerateImage_Return in Hh.
  destruct Hh as (v & w1 & Hv & Hp).
  apply validateRequest_Return in Hv.
  destruct Hv as (a & s & path & _ & _ & _ & _ & _ & _ & Hw1).
  split.
  - pose proof (runPipeline_trace env v w1) as (evs & Htr & Hcount).
    rewrite Hp in Htr. cbn [snd] in Htr.
    rewrite Htr, Hw1. unfold logged. cbn [trace].
    rewrite !count_cleanup_app, Hcount. cbn. lia.
  - apply runPipeline_success_tracked in Hp.
    destruct Hp as (buf & t3 & pr & Hpr). now exists v, buf, t3, pr.
Qed.

Lemma success_skips_cleanup_witness :
  let env := stubEnv oneUrl pngBytes in
  let args := Some (promptOnly (VStr (js "sunset over mountains"))) in
  let run := @handleGenerateImage posix_host env args worldTracking in
  (exists resp, run = (Return resp, snd run))
  /\ count_cleanup (trace (snd run)) = 0%nat
  /\ tracked (snd run)
     = [js "/tmp/flux-download.part"; js "/tmp/flux-earlier.tmp"].
Proof.
  intros env args run.
  assert (Hrun : run = (Return (match fst run with
                                | Return r => r
                                | Throw _ => successResponse []
                                end), snd run)) by reflexivity.
  split; [eexists; exact Hrun|].
  destruct (@success_skips_cleanup posix_host env args worldTracking _ _ Hrun)
    as [Hcount _].
  split; [exact Hcount | reflexivity].
Defined.

(** An absolute [output_path] is used as it is: the processor is asked to
    write to exactly that path and the directory that is created is its
    [dirname]; the configured output format and the working directory play
    no part in it. *)
Theorem absolute_path_used_verbatim `{Host} (env : Env) (a : Args.t)
        (w w' : World) (resp : Response) (p : jsstring) :
  handleGenerateImage env (Some a) w = (Return resp, w') ->
  Args.output_path a = VStr p ->
  p <> [] ->
  isAbsolute p = true
  /\ exists v url,
       ProcessOptions.outputPath (processOptions v) = p
       /\ trace w'
          = trace w
            ++ [EvLog (js "info") (js "Starting image generation");
                EvGenerateImage (generationRequest v);
                EvDownloadImage url;
                EvMkdir (dirname p);
                EvProcessImage (processOptions v);
                EvLog (js "info") (js "Image generation completed")].
Proof.
  intros Hh Ha Hne. apply handleGenerateImage_Return in Hh.
  destruct Hh as (v & w1 & Hv & Hp).
  apply validateRequest_Return in Hv.
  destruct Hv as (a' & s & path & Hsome & _ & _ & Hr & Hdef & _ & Hw1).
  inversion Hsome; subst a'; clear Hsome.
  unfold resolveOutputPath in Hr. rewrite Ha in Hr.
  destruct p as [|c p']; [contradiction|]. cbn [truthy] in Hr.
  destruct (isAbsolute (c :: p')) eqn:Habs; cbn [negb] in Hr;
    [|discriminate].
  inversion Hr; subst path; clear Hr.
  split; [reflexivity|].
  apply runPipeline_success in Hp.
  destruct Hp as (result & url & rest & t1 & buf & t2 & t3 & pr & t4
                  & _ & _ & _ & _ & _ & _ & Htrace).
  exists v, url. rewrite Hdef in *.
  cbn [processOptions defaulted Locals.resolvedOutputPath
       ProcessOptions.outputPath] in *.
  split; [reflexivity|].
  rewrite Htrace, Hw1. unfold logged. cbn [trace].
  now rewrite <- !app_assoc.
Qed.

Lemma absolute_path_used_verbatim_witness :
  let env := stubEnv oneUrl pngBytes in
  let a := {| Args.prompt := VStr (js "sunset"); Args.model := VUndefined;
              Args.output_path := VStr (js "/data/art/sunset.webp");
              Args.width := VUndefined; Args.height := VUndefined;
              Args.quality := VUndefined |} in
  let run := @handleGenerateImage posix_host env (Some a) world0 in
  (exists resp, run = (Return resp, snd run))
  /\ In (EvMkdir (js "/data/art")) (trace (snd run))
  /\ @isAbsolute posix_host (js "/data/art/sunset.webp") = true.
Proof.
  intros env a run.
  assert (Hrun : run = (Return (match fst run with
                                | Return r => r
                                | Throw _ => successResponse []
                                end), snd run)) by reflexivity.
  split; [eexists; exact Hrun|].
  destruct (@absolute_path_used_verbatim posix_host env a world0 _ _
              (js "/data/art/sunset.webp") Hrun eq_refl ltac:(discriminate))
    as (Habs & v & url & _ & Htrace).
  split; [|exact Habs].
  rewrite Htrace. apply in_or_app. right. cbn. auto.
Defined.

(* ================================================================== *)
(** ** Where a generated file lands on a POSIX host *)

Lemma split_slash_app (a b cur : jsstring) :
  split_slash cur (a ++ slash :: b) = split_slash cur a ++ split_slash [] b.
Proof.
  revert cur. induction a as [|c a IH]; intro cur.
  - cbn [app split_slash]. now rewrite N.eqb_refl.
  - cbn [app split_slash]. destruct (c =? slash); [|apply IH].
    now rewrite IH.
Qed.

Lemma split_slash_plain (f cur : jsstring) :
  existsb (fun c => c =? slash) f = false ->
  split_slash cur f = [rev cur ++ f].
Proof.
  revert cur. induction f as [|c f IH]; intros cur Hf.
  - cbn [split_slash]. now rewrite app_nil_r.
  - cbn [existsb] in Hf. apply orb_false_iff in Hf. destruct Hf as [Hc Hf].
    cbn [split_slash]. rewrite Hc, (IH (c :: cur) Hf). cbn [rev].
    now rewrite <- app_assoc.
Qed.

(** Normalising a list of segments and then some more is normalising the
    rest from the stack the first ones leave. *)
Lemma normalize_segments_app (allow : bool) (xs : list jsstring) :
  forall stack, exists stack',
    forall ys, normalize_segments allow stack (xs ++ ys)
               = normalize_segments allow stack' ys.
Proof.
  induction xs as [|seg xs IH]; intro stack.
  - exists stack. reflexivity.
  - cbn [app normalize_segments].
    destruct (_ || is_dot seg); [apply IH|].
    destruct (is_dotdot seg); [|apply IH].
    destruct stack as [|top below]; [apply IH|].
    destruct (is_dotdot top); apply IH.
Qed.

Lemma join_with_snoc (sep f : jsstring) (l : list jsstring) :
  exists pre, join_with sep (l ++ [f]) = pre ++ f
              /\ (pre = [] \/ exists dir, pre = dir ++ sep).
Proof.
  induction l as [|x l (pre & Heq & Hpre)].
  - exists []. split; [reflexivity | now left].
  - cbn [app]. destruct (l ++ [f]) as [|y r] eqn:Hl.
    + destruct l; discriminate.
    + change (join_with sep (x :: y :: r))
        with (x ++ sep ++ join_with sep (y :: r)).
      rewrite Heq. exists (x ++ sep ++ pre).
      split; [now rewrite <- !app_assoc|]. right.
      destruct Hpre as [->|[dir ->]].
      * exists x. now rewrite app_nil_r.
      * exists (x ++ sep ++ dir). now rewrite <- !app_assoc.
Qed.

Lemma plain_name_facts (f : jsstring) :
  plain_name f = true ->
  existsb (fun c => c =? slash) f = false
  /\ f <> [] /\ is_dot f = false /\ is_dotdot f = false.
Proof.
  unfold plain_name. intro H.
  apply andb_true_iff in H. destruct H as [H Hdd].
  apply andb_true_iff in H. destruct H as [H Hd].
  apply andb_true_iff in H. destruct H as [Hs Hne].
  apply negb_true_iff in Hs, Hd, Hdd.
  repeat split; try assumption. intros ->. discriminate.
Qed.

Lemma last_is_not_slash (f : jsstring) :
  existsb (fun c => c =? slash) f = false ->
  match rev f with c :: _ => c =? slash | [] => false end = false.
Proof.
  intro Hf. destruct (rev f) as [|c r] eqn:Hr; [reflexivity|].
  assert (Hin : In c f) by (apply in_rev; rewrite Hr; now left).
  destruct (c =? slash) eqn:Hc; [|reflexivity].
  assert (Hex : existsb (fun c => c =? slash) f = true)
    by (apply existsb_exists; now exists c).
  rewrite Hex in Hf. discriminate.
Qed.

(** Normalising a path that ends in a separator and a plain name keeps the
    name as the last segment. *)
Lemma posix_normalize_keeps_name (p f : jsstring) :
  plain_name f = true ->
  p = f \/ (exists dir, p = dir ++ slash :: f) ->
  exists pre, posix_normalize p = pre ++ f
              /\ (pre = [] \/ exists dir, pre = dir ++ [slash]).
Proof.
  intros Hplain Hp.
  destruct (plain_name_facts f Hplain) as (Hns & Hne & Hd & Hdd).
  assert (Hsegs : exists segs, split_slash [] p = segs ++ [f]).
  { destruct Hp as [->|[dir ->]].
    - exists []. now rewrite split_slash_plain.
    - exists (split_slash [] dir).
      now rewrite split_slash_app, (split_slash_plain f [] Hns). }
  assert (Htrail : match rev p with c :: _ => c =? slash | [] => false end
                   = false).
  { destruct Hp as [->|[dir ->]]; [now apply last_is_not_slash|].
    change (dir ++ slash :: f) with (dir ++ [slash] ++ f).
    rewrite !rev_app_distr.
    pose proof (last_is_not_slash f Hns) as Hl.
    destruct (rev f) as [|c r] eqn:Hr; [|exact Hl].
    apply (f_equal (@rev N)) in Hr. rewrite rev_involutive in Hr.
    now subst f. }
  assert (Hpne : p <> []).
  { destruct Hp as [->|[dir ->]]; [exact Hne|]. now destruct dir. }
  destruct Hsegs as [segs Hsegs].
  unfold posix_normalize. destruct p as [|c0 p0]; [contradiction|].
  rewrite Htrail, Hsegs.
  destruct (normalize_segments_app (negb (posix_isAbsolute (c0 :: p0)))
              segs []) as [stack' Hnorm].
  rewrite Hnorm. cbn [normalize_segments].
  destruct f as [|cf f']; [contradiction|]. cbn [orb].
  rewrite Hd, Hdd. cbn [orb normalize_segments rev].
  destruct (join_with_snoc [slash] (cf :: f') (rev stack'))
    as (pre & Heq & Hpre).
  rewrite Heq.
  destruct (pre ++ cf :: f') as [|b body] eqn:Hbody;
    [destruct pre; discriminate|].
  rewrite <- Hbody.
  destruct (posix_isAbsolute (c0 :: p0)).
  - exists (slash :: pre). split; [reflexivity|]. right.
    destruct Hpre as [->|[dir ->]]; [now exists [] | now exists (slash :: dir)].
  - exists pre. split; [reflexivity | exact Hpre].
Qed.

Lemma posix_join_keeps_name (wd f : jsstring) :
  plain_name f = true ->
  exists pre, posix_join wd f = pre ++ f
              /\ (pre = [] \/ exists dir, pre = dir ++ [slash]).
Proof.
  intro Hplain.
  destruct (plain_name_facts f Hplain) as (_ & Hne & _ & _).
  unfold posix_join. destruct wd as [|c wd'].
  - destruct f as [|cf f']; [contradiction|].
    apply posix_normalize_keeps_name; [exact Hplain | now left].
  - destruct f as [|cf f']; [contradiction|].
    apply posix_normalize_keeps_name; [exact Hplain|].
    right. now exists (c :: wd').
Qed.

Lemma existsb_forallb_negb {A} (f : A -> bool) (l : list A) :
  forallb (fun x => negb (f x)) l = true -> existsb f l = false.
Proof.
  induction l as [|x l IH]; [reflexivity|]. cbn [forallb existsb].
  intro H. apply andb_true_iff in H. destruct H as [Hx Hl].
  apply negb_true_iff in Hx. now rewrite Hx, IH.
Qed.

Lemma is_dot_length (f : jsstring) :
  is_dot f = true -> List.length f = 1%nat.
Proof.
  destruct f as [|c [|c' t]]; try discriminate; [reflexivity|].
  unfold is_dot. destruct c as [|p]; [discriminate|].
  do 6 (destruct p as [p|p|]; try discriminate).
Qed.

Lemma is_dotdot_length (f : jsstring) :
  is_dotdot f = true -> List.length f = 2%nat.
Proof.
  destruct f as [|c [|c' [|c'' t]]]; try reflexivity; unfold is_dotdot.
  - discriminate.
  - destruct c as [|p]; [discriminate|].
    do 6 (destruct p as [p|p|]; try discriminate).
  - destruct c as [|p]; [discriminate|].
    do 6 (destruct p as [p|p|]; try discriminate).
    destruct c' as [|p]; [discriminate|].
    do 6 (destruct p as [p|p|]; try discriminate).
Qed.

Lemma stem_char_is_not_slash (c : N) :
  is_stem_char c = true -> negb (c =? slash) = true.
Proof.
  intro H. apply negb_true_iff, N.eqb_neq. intros ->. discriminate H.
Qed.

(** On a host whose [path.join] is the POSIX one, whatever its case
    mapping, with a four-digit year and a format that holds no separator,
    an automatically named file is written under the generated name: the
    path is a directory prefix followed by exactly that name, which is a
    single plain segment.  Neither the prompt nor a working directory with
    [.], [..], doubled or trailing separators can change the name or add a
    directory level below the working directory. *)
Theorem generated_path_keeps_name `{Host} (prompt format : jsstring)
        (w : World) :
  (forall a b, join a b = posix_join a b) ->
  (0 <= year (now w) <= 9999)%Z ->
  existsb (fun c => c =? slash) format = false ->
  exists pre name,
    resolveOutputPath VUndefined prompt format w = (Return (pre ++ name), w)
    /\ generateFilename prompt format w = (Return name, w)
    /\ plain_name name = true
    /\ (pre = [] \/ exists dir, pre = dir ++ [slash]).
Proof.
  intros Hjoin Hyear Hfmt.
  destruct (generateFilename_stem prompt format w Hyear)
    as (stem & Hgen & Hstem & Hlen).
  assert (Hplain : plain_name (stem ++ js "." ++ format) = true).
  { unfold plain_name.
    rewrite !existsb_app, Hfmt.
    rewrite (existsb_forallb_negb (fun c => c =? slash) stem).
    2:{ apply forallb_forall. intros c Hin.
        rewrite forallb_forall in Hstem.
        now apply stem_char_is_not_slash, Hstem. }
    change (existsb (fun c => c =? slash) (js ".")) with false.
    cbn [orb negb andb].
    assert (Hlong : (3 <= List.length (stem ++ js "." ++ format))%nat)
      by (rewrite length_app; lia).
    destruct (is_dot (stem ++ js "." ++ format)) eqn:Hdot;
      [apply is_dot_length in Hdot; lia|].
    destruct (is_dotdot (stem ++ js "." ++ format)) eqn:Hdd;
      [apply is_dotdot_length in Hdd; lia|].
    destruct (stem ++ js "." ++ format); [cbn in Hlong; lia | reflexivity]. }
  destruct (posix_join_keeps_name (workingDirectory w)
              (stem ++ js "." ++ format) Hplain) as (pre & Hpj & Hpre).
  exists pre, (stem ++ js "." ++ format).
  split; [|split; [exact Hgen | split; [exact Hplain | exact Hpre]]].
  unfold resolveOutputPath. cbn [truthy].
  unfold bind at 1. rewrite Hgen.
  unfold bind, this_workingDirectory, ret. now rewrite Hjoin, Hpj.
Qed.

Lemma generated_path_keeps_name_witness :
  let messy := {| workingDirectory := js "/srv//images/../out/./";
                  now := clock0; tracked := []; trace := [] |} in
  (forall a b, @join posix_host a b = posix_join a b)
  /\ (0 <= year (now messy) <= 9999)%Z
  /\ existsb (fun c => c =? slash) (js "png") = false
  /\ @resolveOutputPath posix_host VUndefined (js "../../etc/passwd")
       (js "png") messy
     = (Return (js "/srv/out/etcpasswd_2024-03-07T09-05-59.png"), messy)
  /\ exists pre name,
       @resolveOutputPath posix_host VUndefined (js "../../etc/passwd")
         (js "png") messy = (Return (pre ++ name), messy)
       /\ plain_name name = true.
Proof.
  intro messy.
  assert (Hjoin : forall a b, @join posix_host a b = posix_join a b)
    by reflexivity.
  assert (Hyear : (0 <= year (now messy) <= 9999)%Z)
    by (vm_compute; split; discriminate).
  split; [exact Hjoin|].
  split; [exact Hyear|]. split; [reflexivity|]. split; [reflexivity|].
  destruct (@generated_path_keeps_name posix_host (js "../../etc/passwd")
              (js "png") messy Hjoin Hyear eq_refl)
    as (pre & name & Hr & _ & Hplain & _).
  now exists pre, name.
Defined.

(* ================================================================== *)
(** ** The tool catalogue and the handler of calls *)

Lemma str_eqb_eq (a b : jsstring) : str_eqb a b = true -> a = b.
Proof.
  revert b. induction a as [|x a IH]; intros [|y b]; try discriminate;
    [reflexivity|].
  cbn [str_eqb]. intro H. apply andb_true_iff in H. destruct H as [Hxy Hab].
  apply N.eqb_eq in Hxy. now rewrite Hxy, (IH b Hab).
Qed.

Lemma generate_image_always_answers `{Host} (env : Env)
      (args : option Args.t) (w : World) :
  exists resp w',
    callToolHandler env (js "generate_image") args w = (Return resp, w').
Proof.
  unfold callToolHandler. rewrite str_eqb_refl. unfold try_catch.
  destruct (handleGenerateImage env args w) as [[resp|e] w1].
  - now exists resp, w1.
  - unfold bind, error, emit, ret. eexists. eexists. reflexivity.
Qed.

(** The catalogue and the call handler agree on the tool names: a call is
    answered with a payload exactly when its name is one the catalogue
    lists, and any other name is refused with ["Unknown tool: <name>"]
    before anything is done.  Listing the tools changes nothing. *)
Theorem listed_tools_are_callable `{Host} (env : Env) (name : jsstring)
        (args : option Args.t) (w : World) :
  exists tools,
    listToolsHandler w = (Return tools, w)
    /\ (existsb (fun t => str_eqb name (toolName t)) tools = true ->
        exists resp w', callToolHandler env name args w = (Return resp, w'))
    /\ (existsb (fun t => str_eqb name (toolName t)) tools = false ->
        callToolHandler env name args w
        = (Throw (validationError (js "Unknown tool: " ++ name)), w)).
Proof.
  eexists. split; [reflexivity|]. cbn [existsb toolName]. split.
  - rewrite orb_false_r. intro Hname. apply str_eqb_eq in Hname. subst name.
    apply generate_image_always_answers.
  - rewrite orb_false_r. intro Hname. unfold callToolHandler.
    now rewrite Hname.
Qed.

Lemma listed_tools_are_callable_witness :
  exists tools,
    listToolsHandler world0 = (Return tools, world0)
    /\ map toolName tools = [js "generate_image"]
    /\ @callToolHandler posix_host (stubEnv oneUrl pngBytes)
         (js "Generate_Image") None world0
       = (Throw (validationError (js "Unknown tool: Generate_Image")), world0).
Proof.
  destruct (@listed_tools_are_callable posix_host (stubEnv oneUrl pngBytes)
              (js "Generate_Image") None world0)
    as (tools & Hlist & _ & Hother).
  exists tools. split; [exact Hlist|].
  inversion Hlist; subst tools. split; [reflexivity|].
  apply Hother. reflexivity.
Defined.

(** The [required] list of the input schema is what the handler requires:
    an argument object that lacks a required key is refused with a
    validation error whatever else it holds, and one that holds the required
    keys and nothing else, with a prompt that is not blank, passes the
    validation as soon as the configured default model is a supported one. *)
Theorem required_arguments_suffice `{Host} (env : Env) (w : World)
        (tool : ToolDescription) :
  In tool (match fst (listToolsHandler w) with
           | Return tools => tools
           | Throw _ => []
           end) ->
  (forall keys value k,
      In k (required tool) -> existsb (str_eqb k) keys = false ->
      exists message,
        handleGenerateImage env (Some (argsWith keys value)) w
        = (Throw (validationError message), w))
  /\ (forall s,
        forallb is_whitespace s = false ->
        isModelSupported env (VStr (Config.defaultModel (getConfig env)))
        = true ->
        exists v,
          validateRequest env (Some (argsWith (required tool) (VStr s))) w
          = (Return v,
             logged (EvLog (js "info") (js "Starting image generation")) w)
          /\ GenRequest.prompt (generationRequest v) = trim s
          /\ GenRequest.width (generationRequest v) = VNum 1024
          /\ GenRequest.height (generationRequest v) = VNum 768).
Proof.
  cbn [listToolsHandler ret fst In]. intros [<-|[]]. cbn [required]. split.
  - intros keys value k [<-|[]] Hmissing. eexists.
    unfold handleGenerateImage, bind.
    rewrite validateRequest_blank_prompt; [reflexivity|].
    unfold argsWith. cbn [Args.prompt]. now rewrite Hmissing.
  - intros s Hs Hmodel.
    change (argsWith [js "prompt"] (VStr s)) with (promptOnly (VStr s)).
    destruct (validateRequest_after_prompt env (promptOnly (VStr s)) w Hs)
      as (s' & Hs' & _ & Hv).
    cbn [promptOnly Args.prompt] in Hs'. inversion Hs'; subst s'; clear Hs'.
    eexists. split.
    + rewrite Hv. unfold bind at 1.
      cbn [promptOnly Args.output_path resolveOutputPath truthy].
      unfold bind at 1 2, generateFilename, bind at 1, newDate, ret,
        this_workingDirectory.
      cbn [defaulted Locals.model promptOnly Args.model js_or truthy].
      rewrite Hmodel. cbn [negb]. reflexivity.
    + repeat split.
Qed.

Lemma required_arguments_suffice_witness :
  let tool := {| toolName := js "generate_image";
                 toolDescription :=
                   js "Generate images using Flux Pro or Flux Schnell models";
                 properties :=
                   match fst (listToolsHandler world0) with
                   | Return (t :: _) => properties t
                   | _ => []
                   end;
                 required := [js "prompt"] |} in
  In tool (match fst (listToolsHandler world0) with
           | Return tools => tools
           | Throw _ => []
           end)
  /\ exists message,
       @handleGenerateImage posix_host (stubEnv oneUrl pngBytes)
         (Some (argsWith [js "model"; js "width"] (VStr (js "flux-pro"))))
         world0
       = (Throw (validationError message), world0).
Proof.
  intro tool.
  assert (Hin : In tool (match fst (listToolsHandler world0) with
                         | Return tools => tools
                         | Throw _ => []
                         end)) by (left; reflexivity).
  split; [exact Hin|].
  apply (proj1 (@required_arguments_suffice posix_host
                  (stubEnv oneUrl pngBytes) world0 tool Hin)
           [js "model"; js "width"] (VStr (js "flux-pro")) (js "prompt"));
    [left; reflexivity | reflexivity].
Defined.

(* ================================================================== *)
(** ** The life of the process *)

(** Every way [start] can go, from the answers of its three externals. *)
Lemma start_cases (sys : Startup) (p : Process) :
  let failed trace_ lifecycle_ :=
    (@Exits unit 1,
     {| world := {| workingDirectory := workingDirectory (world p);
                    now := now (world p); tracked := tracked (world p);
                    trace := trace_ |};
        lifecycle := lifecycle_ |}) in
  start sys p
  = match configuredDirectory sys with
    | Throw _ =>
        failed (trace (world p)
                ++ [EvLog (js "error") (js "Failed to start server")])
               (lifecycle p ++ [LifeExit 1])
    | Return dir =>
        match ensureWorkingDirectory sys dir with
        | Throw _ =>
            failed (trace (world p)
                    ++ [EvLog (js "error") (js "Failed to start server")])
                   (lifecycle p ++ [LifeEnsureDirectory dir; LifeExit 1])
        | Return wd =>
            let started :=
              trace (world p)
              ++ [EvLog (js "info") (js "Starting Flux Replicate MCP Server")] in
            match connect sys with
            | Throw _ =>
                (Exits 1,
                 {| world := {| workingDirectory := wd; now := now (world p);
                                tracked := tracked (world p);
                                trace := started
                                  ++ [EvLog (js "error")
                                        (js "Failed to start server")] |};
                    lifecycle := lifecycle p
                      ++ [LifeEnsureDirectory dir; LifeConnect; LifeExit 1] |})
            | Return _ =>
                (Resolves tt,
                 {| world := {| workingDirectory := wd; now := now (world p);
                                tracked := tracked (world p);
                                trace := started
                                  ++ [EvLog (js "info")
                                        (js "Server started successfully")] |};
                    lifecycle := lifecycle p
                      ++ [LifeEnsureDirectory dir; LifeConnect] |})
            end
        end
    end.
Proof.
  destruct p as [[wd0 clock tr0 trace0] life0].
  unfold start, catchP, bindP, fromOutcome, attempt, set_workingDirectory,
    liftM, exit, info, error, emit.
  destruct (configuredDirectory sys) as [dir|e]; cbn; [|reflexivity].
  destruct (ensureWorkingDirectory sys dir) as [wd|e]; cbn;
    [|rewrite <- ?app_assoc; reflexivity].
  destruct (connect sys) as [[]|e]; cbn; rewrite <- !app_assoc; reflexivity.
Qed.

(** [start] never rejects: it resolves or it exits with code 1, having
    logged the failure.  It resolves only with the transport connected and
    the working directory set to what [ensureWorkingDirectory] answered, and
    it does not even try to connect when the configuration or the directory
    failed.  The tracked paths are not touched. *)
Theorem start_connects_or_exits (sys : Startup) (p : Process) :
  let p' := snd (start sys p) in
  tracked (world p') = tracked (world p)
  /\ (In LifeConnect (skipn (List.length (lifecycle p)) (lifecycle p')) ->
      exists dir wd,
        configuredDirectory sys = Return dir
        /\ ensureWorkingDirectory sys dir = Return wd
        /\ workingDirectory (world p') = wd)
  /\ match fst (start sys p) with
     | Resolves _ =>
         In LifeConnect (skipn (List.length (lifecycle p)) (lifecycle p'))
         /\ connect sys = Return tt
     | Exits code =>
         code = 1%Z
         /\ exists events,
              lifecycle p' = lifecycle p ++ events ++ [LifeExit 1]
              /\ trace (world p')
                 = trace (world p)
                   ++ (if existsb (fun ev => match ev with
                                             | LifeConnect => true
                                             | _ => false
                                             end) events
                       then [EvLog (js "info")
                               (js "Starting Flux Replicate MCP Server")]
                       else [])
                   ++ [EvLog (js "error") (js "Failed to start server")]
     | Rejects _ => False
     end.
Proof.
  intro p'. subst p'. rewrite start_cases.
  assert (Hskip : forall (l more : list LifeEvent),
             skipn (List.length l) (l ++ more) = more).
  { intros l more. rewrite skipn_app, skipn_all, Nat.sub_diag. reflexivity. }
  destruct (configuredDirectory sys) as [dir|e]; cbn [fst snd world lifecycle
    tracked trace workingDirectory].
  2:{ split; [reflexivity|]. rewrite Hskip. split.
      - intros [Hc|[]]; discriminate Hc.
      - split; [reflexivity|]. exists []. split; reflexivity. }
  destruct (ensureWorkingDirectory sys dir) as [wd|e] eqn:Hwd; cbn [fst snd
    world lifecycle tracked trace workingDirectory].
  2:{ split; [reflexivity|]. rewrite Hskip. split.
      - intros [Hc|[Hc|[]]]; discriminate Hc.
      - split; [reflexivity|]. exists [LifeEnsureDirectory dir].
        split; reflexivity. }
  destruct (connect sys) as [[]|e]; cbn [fst snd world lifecycle tracked trace
    workingDirectory]; rewrite Hskip.
  - split; [reflexivity|]. split; [intros _; now exists dir, wd|].
    split; [right; now left | reflexivity].
  - split; [reflexivity|]. split; [intros _; now exists dir, wd|].
    split; [reflexivity|]. exists [LifeEnsureDirectory dir; LifeConnect].
    split; [reflexivity|]. cbn [existsb orb]. now rewrite <- app_assoc.
Qed.

(** A server that [main] has started resolves automatic paths in the
    directory that [ensureWorkingDirectory] answered, not in the configured
    one, and [main] ends in no other way than serving or with exit code 1:
    the [catch] on its promise is never entered through [start]. *)
Theorem main_serves_from_ensured_directory `{Host} (sys : Startup)
        (clock : UTCDate) :
  main sys clock = start sys (newServer clock)
  /\ (forall e, fst (main sys clock) <> Rejects e)
  /\ (forall code, fst (main sys clock) = Exits code -> code = 1%Z)
  /\ (fst (main sys clock) = Resolves tt ->
      exists dir wd,
        configuredDirectory sys = Return dir
        /\ ensureWorkingDirectory sys dir = Return wd
        /\ tracked (world (snd (main sys clock))) = []
        /\ forall prompt format name,
             fst (generateFilename prompt format
                    (world (snd (main sys clock)))) = Return name ->
             fst (resolveOutputPath VUndefined prompt format
                    (world (snd (main sys clock))))
             = Return (join wd name)).
Proof.
  assert (Hmain : main sys clock = start sys (newServer clock)).
  { unfold main, catchP. rewrite start_cases.
    destruct (configuredDirectory sys) as [dir|e]; [|reflexivity].
    destruct (ensureWorkingDirectory sys dir) as [wd|e]; [|reflexivity].
    destruct (connect sys) as [[]|e]; reflexivity. }
  split; [exact Hmain|]. rewrite Hmain, start_cases.
  destruct (configuredDirectory sys) as [dir|e]; cbn [fst snd].
  2:{ split; [discriminate|]. split; [|discriminate].
      intros code Hc. now inversion Hc. }
  destruct (ensureWorkingDirectory sys dir) as [wd|e] eqn:Hwd; cbn [fst snd].
  2:{ split; [discriminate|]. split; [|discriminate].
      intros code Hc. now inversion Hc. }
  destruct (connect sys) as [[]|e]; cbn [fst snd].
  2:{ split; [discriminate|]. split; [|discriminate].
      intros code Hc. now inversion Hc. }
  split; [discriminate|]. split; [discriminate|].
  intros _. exists dir, wd. split; [reflexivity|]. split; [exact Hwd|].
  split; [reflexivity|].
  intros prompt format name Hname.
  unfold resolveOutputPath. cbn [truthy]. unfold bind at 1.
  destruct (generateFilename prompt format _) as [[name'|e] w'] eqn:Hgen;
    cbn [fst] in Hname; [|discriminate].
  inversion Hname; subst name'; clear Hname.
  unfold generateFilename, bind, newDate, ret in Hgen.
  inversion Hgen; subst w'. reflexivity.
Qed.

Lemma main_serves_from_ensured_directory_witness :
  let sys := {| configuredDirectory := Return (js "~/flux-images");
                ensureWorkingDirectory := fun _ =>
                  Return (js "/home/user/flux-images");
                connect := Return tt; close := Return tt |} in
  fst (main sys clock0) = Resolves tt
  /\ fst (@resolveOutputPath posix_host VUndefined (js "sunset") (js "png")
            (world (snd (main sys clock0))))
     = Return (js "/home/user/flux-images/sunset_2024-03-07T09-05-59.png").
Proof.
  intro sys.
  assert (Hok : fst (main sys clock0) = Resolves tt) by reflexivity.
  split; [exact Hok|].
  destruct (@main_serves_from_ensured_directory posix_host sys clock0)
    as (_ & _ & _ & Hserve).
  destruct (Hserve Hok) as (dir & wd & _ & Hwd & _ & Hpath).
  inversion Hwd; subst wd.
  rewrite (Hpath (js "sunset") (js "png")
             (js "sunset_2024-03-07T09-05-59.png") eq_refl).
  reflexivity.
Defined.

(** On [SIGINT] or [SIGTERM] the tracked paths are cleaned up, once, before
    the transport is closed, whatever the requests before have left; the
    process exits with code 0 when [close] answers.  When [close] throws,
    the clean-up has still been done, but [process.exit(0)] is not reached
    and the rejection of the listener is handled by nobody. *)
Theorem signal_cleans_up_then_exits (sys : Startup) (p : Process) :
  let p' := snd (onSignal sys p) in
  tracked (world p') = []
  /\ trace (world p')
     = trace (world p)
       ++ [EvLog (js "info") (js "Shutting down server"); EvCleanupAll]
  /\ workingDirectory (world p') = workingDirectory (world p)
  /\ match close sys with
     | Return _ =>
         fst (onSignal sys p) = Exits 0
         /\ lifecycle p' = lifecycle p ++ [LifeClose; LifeExit 0]
     | Throw e =>
         fst (onSignal sys p) = Rejects e
         /\ lifecycle p' = lifecycle p ++ [LifeClose]
     end.
Proof.
  destruct p as [[wd0 clock tr0 trace0] life0].
  unfold onSignal, shutdown, bindP, liftM, attempt, exit, info, emit,
    cleanupAll.
  destruct (close sys) as [[]|e]; cbn; rewrite <- !app_assoc;
    repeat split.
Qed.

(** A transient file that a successful call left tracked is cleaned up by
    the signal listener. *)
Example signal_after_success :
  let env := stubEnv oneUrl pngBytes in
  let sys := {| configuredDirectory := Return (js "/srv/images");
                ensureWorkingDirectory := fun dir => Return dir;
                connect := Return tt; close := Return tt |} in
  let served :=
    bindP (start sys) (fun _ =>
      liftM (@callToolHandler posix_host env (js "generate_image")
               (Some (promptOnly (VStr (js "sunset over mountains")))))) in
  let p1 := snd (served (newServer clock0)) in
  tracked (world p1) = [js "/tmp/flux-download.part"]
  /\ fst (onSignal sys p1) = Exits 0
  /\ tracked (world (snd (onSignal sys p1))) = [].
Proof. repeat split. Qed.
